(** * 02u6: an OpenAI-to-Ollama chat-completion proxy (main.go)

    A shallow embedding of [main.go] and the properties of its
    request/response translation.

    - Go strings are byte sequences: [string] (a list of 8-bit [ascii]),
      [len] is [String.length].
    - Go's [int] and [int64] are [Z]; the only arithmetic is on string
      lengths, which stay far below 2^63, so no wrap-around is involved.
      Go's [/] on integers truncates: [Z.quot].
    - [float64] is [spec_float], the Standard Library's IEEE 754 model,
      compared with [SFltb] (Go's [>] is the IEEE comparison).
    - The response writer's header map is a [gmap string string].
    - What the handler calls outside main.go (encoding/json, net/http's
      client, math/rand, time) is a record of oracles, [Env]; the handler
      threads the response writer and the log of backend calls through a
      small state monad. *)

From Stdlib Require Import ZArith List Ascii String Lia.
From Stdlib Require Import Floats.SpecFloat.
From Stdlib Require DecimalString.
From stdpp Require Import base option strings gmap.

Import ListNotations.
Local Open Scope Z_scope.

(** ** Constants *)

Definition OLLAMA_API_BASE : string := "http://localhost:11434".
Definition LISTEN_ADDR : string := ":8080".
Definition CONTENT_TYPE_JSON : string := "application/json".

(** net/http's method names and status codes used by main.go. *)
Definition MethodPost : string := "POST".
Definition MethodOptions : string := "OPTIONS".
Definition StatusOK : Z := 200.
Definition StatusBadRequest : Z := 400.
Definition StatusMethodNotAllowed : Z := 405.
Definition StatusInternalServerError : Z := 500.

(** ** Data model *)

Definition float64 : Type := spec_float.

(** The float64 zero value, [+0]. *)
Definition float64_zero : float64 := S754_zero false.

Record ChatMessage : Type := mkChatMessage {
  Role : string;
  Content : string
}.

Record OpenAIChatRequest : Type := mkOpenAIChatRequest {
  Model : string;
  Messages : list ChatMessage;
  Temperature : float64;
  MaxTokens : Z;
  Stream : bool
}.

Record Choice : Type := mkChoice {
  Index : Z;
  Message : ChatMessage;
  FinishReason : string
}.

Record Usage : Type := mkUsage {
  PromptTokens : Z;
  CompletionTokens : Z;
  TotalTokens : Z
}.

Record OpenAIChatResponse : Type := mkOpenAIChatResponse {
  ID : string;
  Object : string;
  Created : Z;
  RespModel : string;
  Choices : list Choice;
  RespUsage : Usage
}.

Record OllamaOptions : Type := mkOllamaOptions {
  OptTemperature : float64;
  NumPredict : Z
}.

Record OllamaRequest : Type := mkOllamaRequest {
  ReqModel : string;
  Prompt : string;
  ReqStream : bool;
  Options : OllamaOptions
}.

Record OllamaResponse : Type := mkOllamaResponse {
  BackModel : string;
  Response : string;
  Done : bool
}.

(** [ErrorResponse]'s anonymous inner struct. *)
Record ErrorDetail : Type := mkErrorDetail {
  ErrMessage : string;
  ErrType : string;
  ErrCode : string
}.

Record ErrorResponse : Type := mkErrorResponse {
  Error : ErrorDetail
}.

(** ** Prompt flattening *)

(** [len(s)] as a Go [int]. *)
Definition len (s : string) : Z := Z.of_nat (String.length s).

(** The body of the [range] loop: [prompt += msg.Role + ": " + msg.Content + "\n"].
    Go's [+] associates to the left. *)
Definition newline : string := String (ascii_of_nat 10) EmptyString.

Definition append_message (prompt : string) (msg : ChatMessage) : string :=
  prompt +:+ (((Role msg +:+ ": ") +:+ Content msg) +:+ newline).

Definition convertMessagesToPrompt (messages : list ChatMessage) : string :=
  fold_left append_message messages EmptyString.

(** The prompt in the specification's words: the in-order concatenation of
    ["<role>: <content>\n"], one chunk per message. *)
Definition prompt_line (msg : ChatMessage) : string :=
  Role msg +:+ ": " +:+ Content msg +:+ newline.

Definition join_lines (chunks : list string) : string :=
  fold_right String.append EmptyString chunks.

Definition spec_prompt (messages : list ChatMessage) : string :=
  join_lines (map prompt_line messages).

(** ** The world outside main.go *)

(** A Go [(T, error)] pair; an [error] is used only through [Error()]. *)
Inductive result (A : Type) : Type :=
| Ok (a : A)
| Err (msg : string).
Arguments Ok {A} a.
Arguments Err {A} msg.

(** What [http.Post] hands back on success: the status code and what
    [io.ReadAll(resp.Body)] returns, the bytes read and possibly an error. *)
Record HttpReply : Type := mkHttpReply {
  StatusCode : Z;
  BodyData : string;
  BodyErr : option string
}.

(** The library calls of main.go, one oracle each:
    - [json_decode_request]: [json.NewDecoder(r.Body).Decode(&openAIReq)];
    - [json_marshal]: [json.Marshal(req)];
    - [http_post url contentType body]: [http.Post], up to the read of the
      reply's body;
    - [json_unmarshal_response]: [json.Unmarshal(body, &ollamaResp)];
    - [rand_draw i]: the raw value behind the i-th [rand.Intn] of a request;
    - [time_now_unix]: [time.Now().Unix()]. *)
Record Env : Type := mkEnv {
  json_decode_request : string -> result OpenAIChatRequest;
  json_marshal : OllamaRequest -> result string;
  http_post : string -> string -> string -> result HttpReply;
  json_unmarshal_response : string -> result OllamaResponse;
  rand_draw : nat -> nat;
  time_now_unix : Z
}.

(** An inbound request: [r.Method] and the bytes of [r.Body]. *)
Record Request : Type := mkRequest {
  Method : string;
  Body : string
}.

(** What [json.NewEncoder(w).Encode] is given: the value, not its bytes. *)
Inductive Payload : Type :=
| JSONChat (resp : OpenAIChatResponse)
| JSONError (resp : ErrorResponse).

(** [http.ResponseWriter]: the live header map, the status line once it is
    written (with the headers as they were sent), and the values encoded
    into the body so far. *)
Record ResponseWriter : Type := mkResponseWriter {
  Header : gmap string string;
  Status : option Z;
  SentHeader : gmap string string;
  Written : list Payload
}.

Definition newResponseWriter : ResponseWriter :=
  {| Header := ∅; Status := None; SentHeader := ∅; Written := [] |}.

(** One recorded [http.Post]. *)
Record PostCall : Type := mkPostCall {
  PostURL : string;
  PostContentType : string;
  PostBody : string
}.

Record World : Type := mkWorld {
  Writer : ResponseWriter;
  Posts : list PostCall
}.

Definition newWorld : World := {| Writer := newResponseWriter; Posts := [] |}.

(** ** The handler's monad: state over [World] *)

Definition M (A : Type) : Type := World -> A * World.

Definition ret {A : Type} (a : A) : M A := fun w => (a, w).

Definition bind {A B : Type} (m : M A) (k : A -> M B) : M B :=
  fun w => let (a, w') := m w in k a w'.

Declare Scope proxy_scope.
Delimit Scope proxy_scope with proxy.
Notation "'let*' x := c1 'in' c2" := (bind c1 (fun x => c2))
  (at level 10, x name, c1 at level 100, c2 at level 200) : proxy_scope.
Notation "c1 >> c2" := (bind c1 (fun _ => c2))
  (at level 62, right associativity) : proxy_scope.
Local Open Scope proxy_scope.

Definition exec {A : Type} (m : M A) (w : World) : World := snd (m w).

(** [w.Header().Set(key, value)] *)
Definition setHeader (key value : string) : M unit :=
  fun w =>
    let rw := Writer w in
    (tt, {| Writer := {| Header := <[key := value]> (Header rw);
                         Status := Status rw;
                         SentHeader := SentHeader rw;
                         Written := Written rw |};
            Posts := Posts w |}).

(** [w.WriteHeader(status)]: the first call fixes the status and the headers
    sent; a later call changes nothing. *)
Definition writeHeaderRW (status : Z) (rw : ResponseWriter) : ResponseWriter :=
  match Status rw with
  | Some _ => rw
  | None => {| Header := Header rw;
               Status := Some status;
               SentHeader := Header rw;
               Written := Written rw |}
  end.

Definition writeHeader (status : Z) : M unit :=
  fun w => (tt, {| Writer := writeHeaderRW status (Writer w); Posts := Posts w |}).

(** [json.NewEncoder(w).Encode(v)]: a write; the first write sends status
    200 when no status was written. *)
Definition encode (v : Payload) : M unit :=
  fun w =>
    let rw := writeHeaderRW StatusOK (Writer w) in
    (tt, {| Writer := {| Header := Header rw;
                         Status := Status rw;
                         SentHeader := SentHeader rw;
                         Written := Written rw ++ [v] |};
            Posts := Posts w |}).

(** [http.Post(url, contentType, body)] against the oracle, recorded. *)
Definition httpPost (env : Env) (url contentType body : string)
  : M (result HttpReply) :=
  fun w =>
    (http_post env url contentType body,
     {| Writer := Writer w;
        Posts := Posts w ++ [ {| PostURL := url;
                                 PostContentType := contentType;
                                 PostBody := body |} ] |}).

(** ** main.go's functions *)

(** fmt's [%d] of an [int]. *)
Definition itoa (n : Z) : string :=
  DecimalString.NilZero.string_of_int (Z.to_int n).

(** [s[i]] for an index known to be in range. *)
Definition byte_at (s : string) (i : nat) : ascii :=
  match String.get i s with
  | Some c => c
  | None => Ascii.zero
  end.

Definition letters : string := "greatJobOnThatUselessRegex000".

(** [rand.Intn(n)] returns a value in [0, n): the i-th raw draw reduced
    modulo [n]. *)
Definition Intn (env : Env) (i n : nat) : nat := (rand_draw env i mod n)%nat.

Definition generateRandomString (env : Env) (n : nat) : string :=
  string_of_list_ascii
    (map (fun i => byte_at letters (Intn env i (String.length letters)))
         (seq 0 n)).

Definition getCurrentUnixTimestamp (env : Env) : Z := time_now_unix env.

Definition sendError (message errorType code : string) (status : Z) : M unit :=
  setHeader "Content-Type" CONTENT_TYPE_JSON >>
  writeHeader status >>
  encode (JSONError {| Error := {| ErrMessage := message;
                                   ErrType := errorType;
                                   ErrCode := code |} |}).

Definition sendToOllama (env : Env) (req : OllamaRequest)
  : M (result OllamaResponse) :=
  match json_marshal env req with
  | Err err => ret (Err ("failed to marshal request: " +:+ err))
  | Ok jsonData =>
    let* posted := httpPost env (OLLAMA_API_BASE +:+ "/api/generate")
                            CONTENT_TYPE_JSON jsonData in
    match posted with
    | Err err => ret (Err ("failed to connect to Ollama: " +:+ err))
    | Ok resp =>
      if negb (StatusCode resp =? StatusOK) then
        ret (Err ("ollama API error (status " +:+ itoa (StatusCode resp)
                  +:+ "): " +:+ BodyData resp))
      else
        match BodyErr resp with
        | Some err => ret (Err ("failed to read response: " +:+ err))
        | None =>
          match json_unmarshal_response env (BodyData resp) with
          | Err err => ret (Err ("failed to parse response: " +:+ err))
          | Ok ollamaResp => ret (Ok ollamaResp)
          end
        end
    end
  end.

(** Lines 127-138: the request handed to [sendToOllama]. The composite
    literal leaves [Options] at its zero value; the two [if]s then fill it. *)
Definition buildOllamaRequest (openAIReq : OpenAIChatRequest) (prompt : string)
  : OllamaRequest :=
  let temperature :=
    if SFltb float64_zero (Temperature openAIReq)
    then Temperature openAIReq else float64_zero in
  let numPredict :=
    if 0 <? MaxTokens openAIReq then MaxTokens openAIReq else 0 in
  {| ReqModel := Model openAIReq;
     Prompt := prompt;
     ReqStream := Stream openAIReq;
     Options := {| OptTemperature := temperature; NumPredict := numPredict |} |}.

(** Lines 146-166: the response built from the backend's reply. *)
Definition buildOpenAIResponse (env : Env) (prompt : string)
    (ollamaReq : OllamaRequest) (ollamaResp : OllamaResponse)
  : OpenAIChatResponse :=
  {| ID := "chatcmpl-" +:+ generateRandomString env 10;
     Object := "chat.completion";
     Created := getCurrentUnixTimestamp env;
     RespModel := ReqModel ollamaReq;
     Choices := [ {| Index := 0;
                     Message := {| Role := "assistant";
                                   Content := Response ollamaResp |};
                     FinishReason := "stop" |} ];
     RespUsage := {| PromptTokens := Z.quot (len prompt) 4;
                     CompletionTokens := Z.quot (len (Response ollamaResp)) 4;
                     TotalTokens :=
                       Z.quot (len prompt + len (Response ollamaResp)) 4 |} |}.

Definition handleChatCompletions (env : Env) (r : Request) : M unit :=
  setHeader "Content-Type" CONTENT_TYPE_JSON >>
  if negb (String.eqb (Method r) MethodPost) then
    sendError "Method not allowed" "invalid_request_error"
              "method_not_allowed" StatusMethodNotAllowed
  else
    match json_decode_request env (Body r) with
    | Err _ =>
      sendError "Invalid request body" "invalid_request_error"
                "invalid_body" StatusBadRequest
    | Ok openAIReq =>
      if (length (Messages openAIReq) =? 0)%nat then
        sendError "Messages array is empty" "invalid_request_error"
                  "invalid_messages" StatusBadRequest
      else if String.eqb (Model openAIReq) "" then
        sendError "Model is required" "invalid_request_error"
                  "invalid_model" StatusBadRequest
      else
        let prompt := convertMessagesToPrompt (Messages openAIReq) in
        let ollamaReq := buildOllamaRequest openAIReq prompt in
        let* sent := sendToOllama env ollamaReq in
        match sent with
        | Err err =>
          sendError ("Error calling Ollama API: " +:+ err) "server_error"
                    "internal_error" StatusInternalServerError
        | Ok ollamaResp =>
          encode (JSONChat (buildOpenAIResponse env prompt ollamaReq ollamaResp))
        end
    end.

Definition corsMiddleware (next : Request -> M unit) (r : Request) : M unit :=
  setHeader "Access-Control-Allow-Origin" "*" >>
  setHeader "Access-Control-Allow-Methods" "POST, OPTIONS" >>
  setHeader "Access-Control-Allow-Headers" "Content-Type, Authorization" >>
  setHeader "Access-Control-Max-Age" "3600" >>
  if String.eqb (Method r) MethodOptions then
    writeHeader StatusOK
  else
    next r.

(** The handler registered in [main] for /v1/chat/completions. *)
Definition handler (env : Env) : Request -> M unit :=
  corsMiddleware (handleChatCompletions env).

(** One request served from a fresh response writer. net/http sends status
    200 when the handler returns without having written one. *)
Definition serve (env : Env) (r : Request) : World :=
  let w := exec (handler env r) newWorld in
  {| Writer := writeHeaderRW StatusOK (Writer w); Posts := Posts w |}.

(** ** Reading a served request *)

(** The request the handler hands to the backend for a decoded request. *)
Definition backendRequest (openAIReq : OpenAIChatRequest) : OllamaRequest :=
  buildOllamaRequest openAIReq (convertMessagesToPrompt (Messages openAIReq)).

Definition generateURL : string := OLLAMA_API_BASE +:+ "/api/generate".

Definition errorPayload (message errorType code : string) : Payload :=
  JSONError {| Error := {| ErrMessage := message;
                           ErrType := errorType;
                           ErrCode := code |} |}.

(** The caller got [status] and one error body of the given type and code. *)
Definition errorReply (w : World) (status : Z) (errorType code : string) : Prop :=
  Status (Writer w) = Some status /\
  exists message, Written (Writer w) = [errorPayload message errorType code].

(** A decoded request that passes both validation checks. *)
Definition validRequest (openAIReq : OpenAIChatRequest) : Prop :=
  Messages openAIReq <> [] /\ Model openAIReq <> "".

(** [sub] occurs in [s]. *)
Definition contains (s sub : string) : Prop :=
  exists before after, s = before +:+ sub +:+ after.

(** With [omitempty], a zero option is left out of the backend request. *)
Definition temperatureSet (o : OllamaRequest) : bool :=
  negb (SFeqb (OptTemperature (Options o)) float64_zero).

Definition numPredictSet (o : OllamaRequest) : bool :=
  negb (NumPredict (Options o) =? 0).

(** What [sendToOllama] returns and which calls it makes do not depend on
    the world it starts from; read both off a run from the fresh one. *)
Definition ollamaResult (env : Env) (req : OllamaRequest) : result OllamaResponse :=
  fst (sendToOllama env req newWorld).

Definition ollamaPosts (env : Env) (req : OllamaRequest) : list PostCall :=
  Posts (snd (sendToOllama env req newWorld)).

(** The answer to a valid POST, read off the backend call's result. *)
Definition answered (env : Env) (openAIReq : OpenAIChatRequest) (w : World) : Prop :=
  match ollamaResult env (backendRequest openAIReq) with
  | Ok ollamaResp =>
    Status (Writer w) = Some StatusOK /\
    Written (Writer w)
    = [JSONChat (buildOpenAIResponse env
                   (convertMessagesToPrompt (Messages openAIReq))
                   (backendRequest openAIReq) ollamaResp)]
  | Err err =>
    Status (Writer w) = Some StatusInternalServerError /\
    Written (Writer w)
    = [errorPayload ("Error calling Ollama API: " +:+ err)
                    "server_error" "internal_error"]
  end.

(** [env] with a backend whose every reply parses to [resp]. *)
Definition withBackendResponse (env : Env) (resp : OllamaResponse) : Env :=
  {| json_decode_request := json_decode_request env;
     json_marshal := json_marshal env;
     http_post := http_post env;
     json_unmarshal_response := fun _ => Ok resp;
     rand_draw := rand_draw env;
     time_now_unix := time_now_unix env |}.

(** ** Lines of a text *)

Definition newlineChar : ascii := ascii_of_nat 10.

Fixpoint hasNewline (s : string) : bool :=
  match s with
  | EmptyString => false
  | String c rest => Ascii.eqb c newlineChar || hasNewline rest
  end.

(** The lines of a text: the runs of bytes before each newline, and a last
    run without a newline when it is not empty. [cur] is the run so far. *)
Fixpoint linesFrom (cur s : string) : list string :=
  match s with
  | EmptyString => match cur with EmptyString => [] | _ => [cur] end
  | String c rest =>
    if Ascii.eqb c newlineChar then cur :: linesFrom EmptyString rest
    else linesFrom (cur +:+ String c EmptyString) rest
  end.

Definition lines (s : string) : list string := linesFrom EmptyString s.

(** ** A scripted environment, for running the handler on examples *)

Definition scripted (decoded : result OpenAIChatRequest)
    (marshalled : result string) (posted : result HttpReply)
    (parsed : result OllamaResponse) : Env :=
  {| json_decode_request := fun _ => decoded;
     json_marshal := fun _ => marshalled;
     http_post := fun _ _ _ => posted;
     json_unmarshal_response := fun _ => parsed;
     rand_draw := fun i => (7 * i + 3)%nat;
     time_now_unix := 1700000000 |}.

Definition hiRequest (stream : bool) : OpenAIChatRequest :=
  {| Model := "llama2";
     Messages := [ {| Role := "user"; Content := "Hi!" |} ];
     Temperature := float64_zero;
     MaxTokens := 0;
     Stream := stream |}.

Definition helloReply : HttpReply :=
  {| StatusCode := 200; BodyData := "{...}"; BodyErr := None |}.

Definition helloResponse : OllamaResponse :=
  {| BackModel := "llama2"; Response := "Hello!"; Done := true |}.

Definition helloEnv : Env :=
  scripted (Ok (hiRequest false)) (Ok "{json}") (Ok helloReply) (Ok helloResponse).

Definition post (body : string) : Request := {| Method := "POST"; Body := body |}.

(** Environments whose decoder reports, for every body, a truncated body, a
    request without messages, one without a model, and one with neither. *)
Definition decodingTo (decoded : result OpenAIChatRequest) : Env :=
  scripted decoded (Ok "{json}") (Ok helloReply) (Ok helloResponse).

Definition truncatedBodyEnv : Env := decodingTo (Err "unexpected EOF").

Definition noMessagesEnv : Env :=
  decodingTo (Ok {| Model := "llama2"; Messages := [];
                    Temperature := float64_zero; MaxTokens := 0; Stream := false |}).

Definition noModelEnv : Env :=
  decodingTo (Ok {| Model := ""; Messages := [ {| Role := "user"; Content := "Hi!" |} ];
                    Temperature := float64_zero; MaxTokens := 0; Stream := false |}).

(** A request asking for temperature 0.5 and at most 64 tokens, streamed. *)
Definition half : float64 := S754_finite false 4503599627370496 (-53).

Definition tunedRequest : OpenAIChatRequest :=
  {| Model := "llama2";
     Messages := [ {| Role := "system"; Content := "Be brief." |};
                   {| Role := "user"; Content := "Hi!" |} ];
     Temperature := half;
     MaxTokens := 64;
     Stream := true |}.

Definition tunedEnv : Env := decodingTo (Ok tunedRequest).

(** Backends that cannot be reached, and that answer 503. *)
Definition unreachableEnv : Env :=
  scripted (Ok (hiRequest false)) (Ok "{json}")
           (Err "dial tcp 127.0.0.1:11434: connect: connection refused")
           (Ok helloResponse).

Definition loadingReply : HttpReply :=
  {| StatusCode := 503; BodyData := "model is loading"; BodyErr := None |}.

Definition overloadedEnv : Env :=
  scripted (Ok (hiRequest false)) (Ok "{json}") (Ok loadingReply)
           (Ok helloResponse).

Definition emptyRequestEnv : Env :=
  decodingTo (Ok {| Model := ""; Messages := [];
                    Temperature := float64_zero; MaxTokens := 0; Stream := false |}).

(** ** Further readings of a served request *)

(** [s] begins with [pre]. *)
Definition startsWith (s pre : string) : Prop :=
  exists rest, s = pre +:+ rest.

(** [c] is one of the bytes of [s]. *)
Definition byteOf (c : ascii) (s : string) : Prop :=
  In c (list_ascii_of_string s).

(** The bytes one message adds to the prompt: its role, [": "], its
    content and the newline. *)
Definition messageBytes (msg : ChatMessage) : Z :=
  len (Role msg) + len (Content msg) + 3.

Definition promptBytes (messages : list ChatMessage) : Z :=
  fold_right Z.add 0 (map messageBytes messages).

Definition isNaN (x : float64) : bool :=
  match x with
  | S754_nan => true
  | _ => false
  end.

(** The headers [corsMiddleware] sets on every request. *)
Definition corsHeaders : gmap string string :=
  <["Access-Control-Max-Age" := "3600"]>
    (<["Access-Control-Allow-Headers" := "Content-Type, Authorization"]>
       (<["Access-Control-Allow-Methods" := "POST, OPTIONS"]>
          (<["Access-Control-Allow-Origin" := "*"]> ∅))).

(** The (status, type, code) triples main.go passes to [sendError]. *)
Definition errorTaxonomy (status : Z) (errorType code : string) : Prop :=
  (status = StatusMethodNotAllowed /\ errorType = "invalid_request_error"
   /\ code = "method_not_allowed") \/
  (status = StatusBadRequest /\ errorType = "invalid_request_error"
   /\ (code = "invalid_body" \/ code = "invalid_messages"
       \/ code = "invalid_model")) \/
  (status = StatusInternalServerError /\ errorType = "server_error"
   /\ code = "internal_error").

(** The one call a request can make: the marshalled request, posted as JSON
    to the generate URL. *)
Definition generateCall (jsonData : string) : PostCall :=
  {| PostURL := generateURL;
     PostContentType := CONTENT_TYPE_JSON;
     PostBody := jsonData |}.

(** Backends whose request does not marshal, whose reply breaks off while
    it is read, and whose reply does not parse. *)
Definition unmarshallableEnv : Env :=
  scripted (Ok (hiRequest false)) (Err "json: unsupported value: +Inf")
           (Ok helloReply) (Ok helloResponse).

Definition brokenReply : HttpReply :=
  {| StatusCode := 200; BodyData := "{"; BodyErr := Some "unexpected EOF" |}.

Definition brokenReadEnv : Env :=
  scripted (Ok (hiRequest false)) (Ok "{json}") (Ok brokenReply)
           (Ok helloResponse).

Definition garbledEnv : Env :=
  scripted (Ok (hiRequest false)) (Ok "{json}") (Ok helloReply)
           (Err "invalid character 'o' in literal null").

(** What a caller and the backend see of a served request: the status, the
    bodies written and the backend calls made. *)
Definition outcome (w : World) : option Z * list Payload * list PostCall :=
  (Status (Writer w), Written (Writer w), Posts w).

(** ** JSON texts and what [Decoder.Decode] reads of them *)

(** The grammar of RFC 8259, followed the way encoding/json's scanner reads
    it: greedily, byte by byte. Each scanner returns what is left of the
    input after the piece it accepts, or [None] on a syntax error or when
    the input ends inside the piece. Bytes are compared by their codes. *)

Definition code (c : ascii) : nat := nat_of_ascii c.

Definition isSpace (c : ascii) : bool :=
  (code c =? 32)%nat || (code c =? 9)%nat || (code c =? 13)%nat
  || (code c =? 10)%nat.

Definition isDigit (c : ascii) : bool :=
  (48 <=? code c)%nat && (code c <=? 57)%nat.

Definition isHex (c : ascii) : bool :=
  isDigit c
  || ((97 <=? code c)%nat && (code c <=? 102)%nat)
  || ((65 <=? code c)%nat && (code c <=? 70)%nat).

(** The bytes that may follow a backslash, [u] apart. *)
Definition isEscape (c : ascii) : bool :=
  existsb (Nat.eqb (code c)) [34; 92; 47; 98; 102; 110; 114; 116]%nat.

Fixpoint skipSpace (s : string) : string :=
  match s with
  | EmptyString => EmptyString
  | String c rest => if isSpace c then skipSpace rest else s
  end.

Fixpoint allSpace (s : string) : bool :=
  match s with
  | EmptyString => true
  | String c rest => isSpace c && allSpace rest
  end.

Fixpoint skipDigits (s : string) : string :=
  match s with
  | EmptyString => EmptyString
  | String c rest => if isDigit c then skipDigits rest else s
  end.

(** A string, read from after its opening quote up to its closing one. *)
Fixpoint scanString (s : string) : option string :=
  match s with
  | EmptyString => None
  | String c rest =>
    if (code c =? 34)%nat then Some rest
    else if (code c =? 92)%nat then
      match rest with
      | EmptyString => None
      | String e rest' =>
        if isEscape e then scanString rest'
        else if (code e =? 117)%nat then
          match rest' with
          | String h1 (String h2 (String h3 (String h4 rest''))) =>
            if isHex h1 && isHex h2 && isHex h3 && isHex h4
            then scanString rest'' else None
          | _ => None
          end
        else None
      end
    else if (code c <? 32)%nat then None
    else scanString rest
  end.

(** The exponent of a number, if there is one. *)
Definition scanExponent (s : string) : option string :=
  match s with
  | EmptyString => Some EmptyString
  | String c rest =>
    if (code c =? 101)%nat || (code c =? 69)%nat then
      let digits :=
        match rest with
        | String sign rest' =>
          if (code sign =? 43)%nat || (code sign =? 45)%nat then rest' else rest
        | EmptyString => rest
        end in
      match digits with
      | String d rest' => if isDigit d then Some (skipDigits rest') else None
      | EmptyString => None
      end
    else Some s
  end.

(** The fraction of a number, if there is one, and then the exponent. *)
Definition scanFraction (s : string) : option string :=
  match s with
  | EmptyString => Some EmptyString
  | String c rest =>
    if (code c =? 46)%nat then
      match rest with
      | String d rest' =>
        if isDigit d then scanExponent (skipDigits rest') else None
      | EmptyString => None
      end
    else scanExponent s
  end.

(** A number, read from its sign or first digit. *)
Definition scanNumber (s : string) : option string :=
  let unsigned :=
    match s with
    | String c rest => if (code c =? 45)%nat then rest else s
    | EmptyString => s
    end in
  match unsigned with
  | EmptyString => None
  | String c rest =>
    if (code c =? 48)%nat then scanFraction rest
    else if isDigit c then scanFraction (skipDigits rest)
    else None
  end.

(** [true], [false] or [null]: the literal must be there in full. *)
Definition scanLiteral (literal s : string) : option string :=
  if String.prefix literal s
  then Some (String.substring (String.length literal)
                              (String.length s - String.length literal) s)
  else None.

(** The elements of an array, read from its first element up to the
    closing bracket; [value] reads one element. *)
Fixpoint scanElements (value : string -> option string) (fuel : nat)
    (s : string) : option string :=
  match fuel with
  | O => None
  | S fuel' =>
    match value s with
    | None => None
    | Some afterValue =>
      match skipSpace afterValue with
      | EmptyString => None
      | String c rest =>
        if (code c =? 44)%nat then scanElements value fuel' rest
        else if (code c =? 93)%nat then Some rest
        else None
      end
    end
  end.

(** The members of an object, read from its first key up to the closing
    brace; [value] reads one member's value. *)
Fixpoint scanMembers (value : string -> option string) (fuel : nat)
    (s : string) : option string :=
  match fuel with
  | O => None
  | S fuel' =>
    match skipSpace s with
    | EmptyString => None
    | String quote afterQuote =>
      if (code quote =? 34)%nat then
        match scanString afterQuote with
        | None => None
        | Some afterKey =>
          match skipSpace afterKey with
          | EmptyString => None
          | String colon afterColon =>
            if (code colon =? 58)%nat then
              match value afterColon with
              | None => None
              | Some afterValue =>
                match skipSpace afterValue with
                | EmptyString => None
                | String c rest =>
                  if (code c =? 44)%nat then scanMembers value fuel' rest
                  else if (code c =? 125)%nat then Some rest
                  else None
                end
              end
            else None
          end
        end
      else None
    end
  end.

(** One value, after any leading space. Every nested value and every member
    or element costs at least one byte, so fuel above the input's length is
    never used up. *)
Fixpoint scanValue (fuel : nat) (s : string) : option string :=
  match fuel with
  | O => None
  | S fuel' =>
    match skipSpace s with
    | EmptyString => None
    | String c rest =>
      if (code c =? 123)%nat then
        match skipSpace rest with
        | EmptyString => None
        | String c' rest' =>
          if (code c' =? 125)%nat then Some rest'
          else scanMembers (scanValue fuel') fuel' rest
        end
      else if (code c =? 91)%nat then
        match skipSpace rest with
        | EmptyString => None
        | String c' rest' =>
          if (code c' =? 93)%nat then Some rest'
          else scanElements (scanValue fuel') fuel' rest
        end
      else if (code c =? 34)%nat then scanString rest
      else if (code c =? 45)%nat || isDigit c then scanNumber (String c rest)
      else if (code c =? 116)%nat then scanLiteral "true" (String c rest)
      else if (code c =? 102)%nat then scanLiteral "false" (String c rest)
      else if (code c =? 110)%nat then scanLiteral "null" (String c rest)
      else None
    end
  end.

(** The first JSON value of a text and the bytes after it. *)
Definition firstValue (body : string) : option (string * string) :=
  let s := skipSpace body in
  match scanValue (S (String.length s)) s with
  | None => None
  | Some rest =>
    Some (String.substring 0 (String.length s - String.length rest) s, rest)
  end.

(** A well-formed JSON text: one value and nothing but space around it. *)
Definition wellFormedJSON (body : string) : bool :=
  match firstValue body with
  | Some (_, rest) => allSpace rest
  | None => false
  end.

(** [json.NewDecoder(r.Body).Decode(&openAIReq)], as encoding/json does it:
    [readValue] scans the next value of the stream, the value's bytes alone
    go to the unmarshaller, and what follows the value is left unread.
    [unmarshal] is the unmarshaller, an oracle on the value's text. *)
Definition decodeFirstValue (unmarshal : string -> result OpenAIChatRequest)
    (body : string) : result OpenAIChatRequest :=
  match firstValue body with
  | None => Err "invalid character looking for beginning of value"
  | Some (value, _) => unmarshal value
  end.

(** The text of the one-message request [hiRequest false]. *)
Definition quoted (s : string) : string :=
  String (ascii_of_nat 34) s +:+ String (ascii_of_nat 34) EmptyString.

Definition hiBody : string :=
  "{" +:+ quoted "model" +:+ ":" +:+ quoted "llama2" +:+ ","
  +:+ quoted "messages" +:+ ":[{" +:+ quoted "role" +:+ ":" +:+ quoted "user"
  +:+ "," +:+ quoted "content" +:+ ":" +:+ quoted "Hi!" +:+ "}]}".

(** The same text followed by bytes that are not JSON. *)
Definition trailingBody : string := hiBody +:+ "garbage".

(** An environment that decodes the way [Decoder.Decode] does; its
    unmarshaller knows the text [hiBody]. *)
Definition firstValueEnv : Env :=
  {| json_decode_request :=
       decodeFirstValue
         (fun value =>
            if String.eqb value hiBody then Ok (hiRequest false)
            else Err "json: cannot unmarshal value into Go value");
     json_marshal := fun _ => Ok "{json}";
     http_post := fun _ _ _ => Ok helloReply;
     json_unmarshal_response := fun _ => Ok helloResponse;
     rand_draw := fun i => (7 * i + 3)%nat;
     time_now_unix := 1700000000 |}.

(** ** Tactics *)

(** Unfold the handler down to the oracles, leaving the header map and the
    strings as they are. *)
Ltac run_handler :=
  cbv beta iota zeta delta
    [serve exec handler corsMiddleware handleChatCompletions sendToOllama
     sendError bind ret setHeader writeHeader encode httpPost writeHeaderRW
     newWorld newResponseWriter errorReply errorPayload
     Writer Posts Status Written Header SentHeader snd fst].

(** Unfold [sendToOllama] down to the oracles. *)
Ltac run_send :=
  cbv beta iota zeta delta
    [ollamaResult ollamaPosts sendToOllama bind ret httpPost newWorld
     Writer Posts snd fst].

(** * Properties *)

(** ** Strings *)

Lemma append_cons (c : ascii) (a b : string) :
  String c a +:+ b = String c (a +:+ b).
Proof. reflexivity. Qed.

Lemma append_nil_r (s : string) : s +:+ "" = s.
Proof.
  induction s as [|c s IH]; [reflexivity|].
  now rewrite append_cons, IH.
Qed.

Lemma append_assoc (a b c : string) : (a +:+ b) +:+ c = a +:+ (b +:+ c).
Proof.
  induction a as [|x a IH]; [reflexivity|].
  now rewrite !append_cons, IH.
Qed.

Lemma contains_middle (before sub after : string) :
  contains (before +:+ sub +:+ after) sub.
Proof. now exists before, after. Qed.

Lemma contains_suffix (before sub : string) : contains (before +:+ sub) sub.
Proof. exists before, ""%string. now rewrite append_nil_r. Qed.

Lemma contains_append_l (before s sub : string) :
  contains s sub -> contains (before +:+ s) sub.
Proof.
  intros (b & a & ->). exists (before +:+ b), a. now rewrite append_assoc.
Qed.

(** ** Prompt flattening *)

Lemma append_message_line (prompt : string) (msg : ChatMessage) :
  append_message prompt msg = prompt +:+ prompt_line msg.
Proof.
  unfold append_message, prompt_line. now rewrite !append_assoc.
Qed.

(** The loop started from any accumulator appends the joined chunks. *)
Lemma fold_append_message (messages : list ChatMessage) (acc : string) :
  fold_left append_message messages acc = acc +:+ spec_prompt messages.
Proof.
  revert acc. induction messages as [|msg rest IH]; intros acc; simpl.
  - unfold spec_prompt. simpl. now rewrite append_nil_r.
  - rewrite IH, append_message_line, append_assoc. reflexivity.
Qed.

(** C3: the flattened prompt is the in-order concatenation of the chunks
    ["<role>: <content>\n"], exactly one chunk per message and the i-th
    chunk built from the i-th message, its role and content copied as they
    are. It holds for every message sequence, the non-empty ones included. *)
Theorem convertMessagesToPrompt_concat (messages : list ChatMessage) :
  convertMessagesToPrompt messages = join_lines (map prompt_line messages) /\
  length (map prompt_line messages) = length messages /\
  forall (i : nat) (msg : ChatMessage),
    messages !! i = Some msg ->
    map prompt_line messages !! i
    = Some (Role msg +:+ ": " +:+ Content msg +:+ newline).
Proof.
  split; [|split].
  - unfold convertMessagesToPrompt. now rewrite fold_append_message.
  - apply length_map.
  - intros i msg Hi.
    change (map prompt_line messages) with (prompt_line <$> messages).
    rewrite list_lookup_fmap, Hi. reflexivity.
Qed.

Lemma convertMessagesToPrompt_concat_witness :
  convertMessagesToPrompt (Messages tunedRequest)
  = join_lines (map prompt_line (Messages tunedRequest)) /\
  length (map prompt_line (Messages tunedRequest)) = 2%nat /\
  map prompt_line (Messages tunedRequest) !! 1%nat
  = Some ("user" +:+ ": " +:+ "Hi!" +:+ newline).
Proof.
  destruct (convertMessagesToPrompt_concat (Messages tunedRequest))
    as (Hjoin & Hlen & Hchunk).
  split; [exact Hjoin|]. split; [exact Hlen|].
  exact (Hchunk 1%nat {| Role := "user"; Content := "Hi!" |} eq_refl).
Defined.

(** Nothing is escaped, so the chunks are the text's lines exactly when no
    role and no content holds a newline. *)

Lemma hasNewline_append (a b : string) :
  hasNewline (a +:+ b) = hasNewline a || hasNewline b.
Proof.
  induction a as [|c a IH]; [reflexivity|].
  rewrite append_cons. simpl. now rewrite IH, orb_assoc.
Qed.

Lemma linesFrom_chunk (chunk cur rest : string) :
  hasNewline chunk = false ->
  linesFrom cur (chunk +:+ newline +:+ rest)
  = (cur +:+ chunk) :: linesFrom "" rest.
Proof.
  revert cur. induction chunk as [|c chunk IH]; intros cur Hfree.
  - rewrite append_nil_r. reflexivity.
  - simpl in Hfree. apply orb_false_iff in Hfree as [Hc Hchunk].
    rewrite append_cons. simpl. rewrite Hc, (IH _ Hchunk), append_assoc.
    reflexivity.
Qed.

Lemma prompt_lines_one_per_message (messages : list ChatMessage) :
  (forall msg, In msg messages ->
     hasNewline (Role msg) = false /\ hasNewline (Content msg) = false) ->
  lines (convertMessagesToPrompt messages)
  = map (fun msg => Role msg +:+ ": " +:+ Content msg) messages.
Proof.
  unfold convertMessagesToPrompt, lines. rewrite fold_append_message.
  change ("" +:+ spec_prompt messages) with (spec_prompt messages).
  induction messages as [|msg rest IH]; intros Hfree; [reflexivity|].
  destruct (Hfree msg (or_introl eq_refl)) as [Hrole Hcontent].
  unfold spec_prompt. simpl. unfold prompt_line at 1.
  rewrite <- !append_assoc, append_assoc.
  rewrite linesFrom_chunk.
  - f_equal. apply IH. intros m Hm. apply Hfree. now right.
  - rewrite !hasNewline_append, Hrole, Hcontent. reflexivity.
Qed.

(** ** Running the handler *)

Lemma method_post_not_options (r : Request) :
  Method r = MethodPost -> String.eqb (Method r) MethodOptions = false.
Proof. intros ->. reflexivity. Qed.

Lemma method_post_eqb (r : Request) :
  Method r = MethodPost -> negb (String.eqb (Method r) MethodPost) = false.
Proof. intros ->. reflexivity. Qed.

Lemma messages_nonempty_eqb (openAIReq : OpenAIChatRequest) :
  Messages openAIReq <> [] -> (length (Messages openAIReq) =? 0)%nat = false.
Proof. destruct (Messages openAIReq); [congruence | reflexivity]. Qed.

Lemma model_nonempty_eqb (openAIReq : OpenAIChatRequest) :
  Model openAIReq <> "" -> String.eqb (Model openAIReq) "" = false.
Proof. apply String.eqb_neq. Qed.

(** A POST whose body fails to decode. *)
Lemma serve_invalid_body (env : Env) (r : Request) (err : string) :
  Method r = MethodPost ->
  json_decode_request env (Body r) = Err err ->
  errorReply (serve env r) StatusBadRequest "invalid_request_error" "invalid_body"
  /\ Posts (serve env r) = [].
Proof.
  intros Hm Hd. run_handler.
  rewrite (method_post_not_options r Hm), (method_post_eqb r Hm), Hd.
  cbv beta iota. eauto.
Qed.

(** A POST that decodes to a request without messages, whatever its model. *)
Lemma serve_invalid_messages (env : Env) (r : Request) (openAIReq : OpenAIChatRequest) :
  Method r = MethodPost ->
  json_decode_request env (Body r) = Ok openAIReq ->
  Messages openAIReq = [] ->
  Status (Writer (serve env r)) = Some StatusBadRequest /\
  Written (Writer (serve env r))
  = [errorPayload "Messages array is empty" "invalid_request_error" "invalid_messages"] /\
  Posts (serve env r) = [].
Proof.
  intros Hm Hd Hmsgs. run_handler.
  rewrite (method_post_not_options r Hm), (method_post_eqb r Hm), Hd.
  cbv beta iota. rewrite Hmsgs. simpl. auto.
Qed.

(** A POST that decodes to a request with messages and no model. *)
Lemma serve_invalid_model (env : Env) (r : Request) (openAIReq : OpenAIChatRequest) :
  Method r = MethodPost ->
  json_decode_request env (Body r) = Ok openAIReq ->
  Messages openAIReq <> [] ->
  Model openAIReq = "" ->
  errorReply (serve env r) StatusBadRequest "invalid_request_error" "invalid_model"
  /\ Posts (serve env r) = [].
Proof.
  intros Hm Hd Hmsgs Hmodel. run_handler.
  rewrite (method_post_not_options r Hm), (method_post_eqb r Hm), Hd.
  cbv beta iota. rewrite (messages_nonempty_eqb _ Hmsgs), Hmodel.
  simpl. eauto.
Qed.

(** C4, amended: a POST on whose body [Decode] returns an error is answered
    400 invalid_body; one that decodes to an empty message list,
    400 invalid_messages; one that decodes to messages and an empty model,
    400 invalid_model. Each time the error type is invalid_request_error and
    no backend call is made. *)
Theorem invalid_requests_rejected (env : Env) (r : Request) :
  Method r = MethodPost ->
  (forall err, json_decode_request env (Body r) = Err err ->
     errorReply (serve env r) StatusBadRequest "invalid_request_error" "invalid_body"
     /\ Posts (serve env r) = []) /\
  (forall openAIReq, json_decode_request env (Body r) = Ok openAIReq ->
     Messages openAIReq = [] ->
     errorReply (serve env r) StatusBadRequest "invalid_request_error" "invalid_messages"
     /\ Posts (serve env r) = []) /\
  (forall openAIReq, json_decode_request env (Body r) = Ok openAIReq ->
     Messages openAIReq <> [] -> Model openAIReq = "" ->
     errorReply (serve env r) StatusBadRequest "invalid_request_error" "invalid_model"
     /\ Posts (serve env r) = []).
Proof.
  intros Hm. split; [|split].
  - intros err Hd. exact (serve_invalid_body env r err Hm Hd).
  - intros openAIReq Hd Hmsgs.
    destruct (serve_invalid_messages env r openAIReq Hm Hd Hmsgs)
      as (Hs & Hw & Hp).
    split; [split; [exact Hs | eexists; exact Hw] | exact Hp].
  - intros openAIReq Hd Hmsgs Hmodel.
    exact (serve_invalid_model env r openAIReq Hm Hd Hmsgs Hmodel).
Qed.

Lemma invalid_requests_rejected_witness :
  (errorReply (serve truncatedBodyEnv (post "{"))
              StatusBadRequest "invalid_request_error" "invalid_body"
   /\ Posts (serve truncatedBodyEnv (post "{")) = []) /\
  (errorReply (serve noMessagesEnv (post "{model}"))
              StatusBadRequest "invalid_request_error" "invalid_messages"
   /\ Posts (serve noMessagesEnv (post "{model}")) = []) /\
  (errorReply (serve noModelEnv (post "{messages}"))
              StatusBadRequest "invalid_request_error" "invalid_model"
   /\ Posts (serve noModelEnv (post "{messages}")) = []).
Proof.
  split; [|split].
  - exact (proj1 (invalid_requests_rejected truncatedBodyEnv (post "{") eq_refl)
                 "unexpected EOF"%string eq_refl).
  - exact (proj1 (proj2 (invalid_requests_rejected noMessagesEnv (post "{model}")
                                                   eq_refl))
                 _ eq_refl eq_refl).
  - refine (proj2 (proj2 (invalid_requests_rejected noModelEnv (post "{messages}")
                                                    eq_refl))
                  _ eq_refl _ eq_refl).
    simpl. discriminate.
Defined.

(** A body that is not well-formed JSON and is not rejected: the text of a
    valid request followed by other bytes. [Decode] reads the request and
    leaves the rest unread, so the handler calls the backend and answers
    200. *)
Lemma trailing_bytes_not_rejected :
  wellFormedJSON hiBody = true /\
  wellFormedJSON trailingBody = false /\
  firstValue trailingBody = Some (hiBody, "garbage"%string) /\
  json_decode_request firstValueEnv (Body (post trailingBody))
  = Ok (hiRequest false) /\
  Status (Writer (serve firstValueEnv (post trailingBody))) = Some StatusOK /\
  Posts (serve firstValueEnv (post trailingBody)) = [generateCall "{json}"] /\
  ~ (errorReply (serve firstValueEnv (post trailingBody)) StatusBadRequest
                "invalid_request_error" "invalid_body"
     /\ Posts (serve firstValueEnv (post trailingBody)) = []).
Proof.
  split; [vm_compute; reflexivity|]. split; [vm_compute; reflexivity|].
  split; [vm_compute; reflexivity|]. split; [vm_compute; reflexivity|].
  split; [vm_compute; reflexivity|]. split; [vm_compute; reflexivity|].
  intros [_ Hposts]. vm_compute in Hposts. discriminate Hposts.
Qed.

(** With a decoder that reads the first value, a body that does not begin
    with a JSON value is among those answered 400 invalid_body. *)
Lemma no_leading_value_rejected (env : Env) (r : Request)
    (unmarshal : string -> result OpenAIChatRequest) :
  Method r = MethodPost ->
  json_decode_request env = decodeFirstValue unmarshal ->
  firstValue (Body r) = None ->
  errorReply (serve env r) StatusBadRequest "invalid_request_error" "invalid_body"
  /\ Posts (serve env r) = [].
Proof.
  intros Hm Hdec Hnone.
  apply (serve_invalid_body env r
           "invalid character looking for beginning of value" Hm).
  rewrite Hdec. unfold decodeFirstValue. now rewrite Hnone.
Qed.

(** A well-formed text is read whole: the bytes left after its value are
    space. *)
Lemma wellFormedJSON_first_value (body : string) :
  wellFormedJSON body = true ->
  exists value rest, firstValue body = Some (value, rest) /\ allSpace rest = true.
Proof.
  unfold wellFormedJSON.
  destruct (firstValue body) as [[value rest]|]; [|discriminate].
  intros Hspace. eauto.
Qed.

(** C9: when the decoded request has neither messages nor a model, the
    answer is the invalid_messages error and not the invalid_model one: the
    messages check comes first. *)
Theorem empty_messages_checked_first (env : Env) (r : Request)
    (openAIReq : OpenAIChatRequest) :
  Method r = MethodPost ->
  json_decode_request env (Body r) = Ok openAIReq ->
  Messages openAIReq = [] ->
  Model openAIReq = "" ->
  errorReply (serve env r) StatusBadRequest "invalid_request_error" "invalid_messages"
  /\ ~ errorReply (serve env r) StatusBadRequest "invalid_request_error" "invalid_model".
Proof.
  intros Hm Hd Hmsgs _.
  destruct (serve_invalid_messages env r openAIReq Hm Hd Hmsgs) as (Hs & Hw & _).
  split.
  - split; [exact Hs | eexists; exact Hw].
  - intros (_ & message & Hw'). rewrite Hw in Hw'. discriminate Hw'.
Qed.

Lemma empty_messages_checked_first_witness :
  errorReply (serve emptyRequestEnv (post "{}"))
             StatusBadRequest "invalid_request_error" "invalid_messages"
  /\ ~ errorReply (serve emptyRequestEnv (post "{}"))
                  StatusBadRequest "invalid_request_error" "invalid_model".
Proof.
  exact (empty_messages_checked_first emptyRequestEnv (post "{}") _
           eq_refl eq_refl eq_refl eq_refl).
Defined.

(** ** Method dispatch *)

(** C8: a request whose method is neither POST nor OPTIONS is answered 405
    with type invalid_request_error and code method_not_allowed; an OPTIONS
    request is answered 200 with no body (and the cross-origin headers).
    Neither reaches the backend. *)
Theorem method_dispatch (env : Env) (r : Request) :
  (Method r <> MethodPost -> Method r <> MethodOptions ->
     errorReply (serve env r) StatusMethodNotAllowed
                "invalid_request_error" "method_not_allowed"
     /\ Posts (serve env r) = []) /\
  (Method r = MethodOptions ->
     Status (Writer (serve env r)) = Some StatusOK /\
     Written (Writer (serve env r)) = [] /\
     Posts (serve env r) = [] /\
     SentHeader (Writer (serve env r)) !! "Access-Control-Allow-Origin" = Some "*" /\
     SentHeader (Writer (serve env r)) !! "Access-Control-Allow-Methods"
       = Some "POST, OPTIONS" /\
     SentHeader (Writer (serve env r)) !! "Access-Control-Allow-Headers"
       = Some "Content-Type, Authorization").
Proof.
  split.
  - intros Hpost Hoptions. run_handler.
    apply String.eqb_neq in Hpost, Hoptions.
    rewrite Hoptions, Hpost. simpl. eauto.
  - intros Hoptions. run_handler.
    rewrite Hoptions. change (String.eqb MethodOptions MethodOptions) with true.
    cbv beta iota. repeat split; reflexivity.
Qed.

Lemma method_dispatch_witness :
  (errorReply (serve helloEnv (mkRequest "GET" ""))
              StatusMethodNotAllowed "invalid_request_error" "method_not_allowed"
   /\ Posts (serve helloEnv (mkRequest "GET" "")) = []) /\
  Status (Writer (serve helloEnv (mkRequest "OPTIONS" ""))) = Some StatusOK /\
  Written (Writer (serve helloEnv (mkRequest "OPTIONS" ""))) = [].
Proof.
  split.
  - refine (proj1 (method_dispatch helloEnv (mkRequest "GET" "")) _ _);
      simpl; discriminate.
  - destruct (proj2 (method_dispatch helloEnv (mkRequest "OPTIONS" "")) eq_refl)
      as (Hs & Hw & _).
    exact (conj Hs Hw).
Defined.

(** ** The backend call *)

Lemma sendToOllama_run (env : Env) (req : OllamaRequest) (w : World) :
  sendToOllama env req w
  = (ollamaResult env req,
     {| Writer := Writer w; Posts := Posts w ++ ollamaPosts env req |}).
Proof.
  run_send. destruct w as [rw posts].
  destruct (json_marshal env req) as [jsonData|err]; cbv beta iota.
  - destruct (http_post env _ _ jsonData) as [resp|err]; cbv beta iota.
    + destruct (negb (StatusCode resp =? StatusOK)); cbv beta iota;
        [reflexivity|].
      destruct (BodyErr resp); cbv beta iota; [reflexivity|].
      destruct (json_unmarshal_response env (BodyData resp)); reflexivity.
    + reflexivity.
  - now rewrite app_nil_r.
Qed.

(** The one call made carries the marshalled request to the generate URL;
    a request that does not marshal is not sent. *)
Lemma ollamaPosts_marshal (env : Env) (req : OllamaRequest) :
  ollamaPosts env req
  = match json_marshal env req with
    | Ok jsonData => [ {| PostURL := generateURL;
                          PostContentType := CONTENT_TYPE_JSON;
                          PostBody := jsonData |} ]
    | Err _ => []
    end.
Proof.
  run_send. destruct (json_marshal env req) as [jsonData|err]; cbv beta iota;
    [|reflexivity].
  destruct (http_post env _ _ jsonData) as [resp|err]; cbv beta iota;
    [|reflexivity].
  destruct (negb (StatusCode resp =? StatusOK)); cbv beta iota; [reflexivity|].
  destruct (BodyErr resp); cbv beta iota; [reflexivity|].
  destruct (json_unmarshal_response env (BodyData resp)); reflexivity.
Qed.

Lemma ollamaResult_transport (env : Env) (req : OllamaRequest)
    (jsonData err : string) :
  json_marshal env req = Ok jsonData ->
  http_post env generateURL CONTENT_TYPE_JSON jsonData = Err err ->
  ollamaResult env req = Err ("failed to connect to Ollama: " +:+ err).
Proof.
  intros Hj Hp. run_send. rewrite Hj. cbv beta iota.
  fold generateURL. rewrite Hp. reflexivity.
Qed.

Lemma ollamaResult_status (env : Env) (req : OllamaRequest)
    (jsonData : string) (resp : HttpReply) :
  json_marshal env req = Ok jsonData ->
  http_post env generateURL CONTENT_TYPE_JSON jsonData = Ok resp ->
  StatusCode resp <> StatusOK ->
  ollamaResult env req
  = Err ("ollama API error (status " +:+ itoa (StatusCode resp) +:+ "): "
         +:+ BodyData resp).
Proof.
  intros Hj Hp Hs. run_send. rewrite Hj. cbv beta iota.
  fold generateURL. rewrite Hp. cbv beta iota.
  apply Z.eqb_neq in Hs. rewrite Hs. reflexivity.
Qed.

Lemma ollamaResult_ok (env : Env) (req : OllamaRequest)
    (jsonData : string) (resp : HttpReply) (ollamaResp : OllamaResponse) :
  json_marshal env req = Ok jsonData ->
  http_post env generateURL CONTENT_TYPE_JSON jsonData = Ok resp ->
  StatusCode resp = StatusOK ->
  BodyErr resp = None ->
  json_unmarshal_response env (BodyData resp) = Ok ollamaResp ->
  ollamaResult env req = Ok ollamaResp.
Proof.
  intros Hj Hp Hs Hb Hu. run_send. rewrite Hj. cbv beta iota.
  fold generateURL. rewrite Hp. cbv beta iota.
  rewrite Hs, Hb. cbv beta iota. change (negb (StatusOK =? StatusOK)) with false.
  cbv beta iota. rewrite Hu. reflexivity.
Qed.

(** ** A request that passes validation *)

Lemma serve_valid (env : Env) (r : Request) (openAIReq : OpenAIChatRequest) :
  Method r = MethodPost ->
  json_decode_request env (Body r) = Ok openAIReq ->
  validRequest openAIReq ->
  answered env openAIReq (serve env r) /\
  Posts (serve env r) = ollamaPosts env (backendRequest openAIReq).
Proof.
  intros Hm Hd [Hmsgs Hmodel]. unfold answered.
  cbv beta iota zeta delta
    [serve exec handler corsMiddleware handleChatCompletions bind setHeader
     newWorld newResponseWriter Writer Posts Status Written Header
     SentHeader snd fst].
  rewrite (method_post_not_options r Hm), (method_post_eqb r Hm), Hd.
  cbv beta iota.
  rewrite (messages_nonempty_eqb _ Hmsgs), (model_nonempty_eqb _ Hmodel).
  cbv beta iota. fold (backendRequest openAIReq).
  rewrite sendToOllama_run.
  destruct (ollamaResult env (backendRequest openAIReq)) as [ollamaResp|err];
    run_handler; auto.
Qed.

Lemma serve_valid_one_body (env : Env) (r : Request) (openAIReq : OpenAIChatRequest) :
  Method r = MethodPost ->
  json_decode_request env (Body r) = Ok openAIReq ->
  validRequest openAIReq ->
  length (Written (Writer (serve env r))) = 1%nat.
Proof.
  intros Hm Hd Hv. destruct (serve_valid env r openAIReq Hm Hd Hv) as [Ha _].
  unfold answered in Ha.
  destruct (ollamaResult env (backendRequest openAIReq));
    destruct Ha as [_ ->]; reflexivity.
Qed.

Lemma serve_valid_posts (env : Env) (r : Request) (openAIReq : OpenAIChatRequest) :
  Method r = MethodPost ->
  json_decode_request env (Body r) = Ok openAIReq ->
  validRequest openAIReq ->
  Posts (serve env r)
  = match json_marshal env (backendRequest openAIReq) with
    | Ok jsonData => [ {| PostURL := generateURL;
                          PostContentType := CONTENT_TYPE_JSON;
                          PostBody := jsonData |} ]
    | Err _ => []
    end.
Proof.
  intros Hm Hd Hv. destruct (serve_valid env r openAIReq Hm Hd Hv) as [_ ->].
  apply ollamaPosts_marshal.
Qed.

(** ** Sampling options *)

(** A float above zero is not zero. *)
Lemma SFltb_zero_not_zero (x : float64) :
  SFltb float64_zero x = true -> SFeqb x float64_zero = false.
Proof.
  destruct x as [s|s| |s m e]; simpl; try discriminate.
  - destruct s; [discriminate | reflexivity].
  - destruct s; [discriminate | reflexivity].
Qed.

Lemma temperature_forwarded (openAIReq : OpenAIChatRequest) :
  (temperatureSet (backendRequest openAIReq) = true
   <-> SFltb float64_zero (Temperature openAIReq) = true) /\
  (SFltb float64_zero (Temperature openAIReq) = true ->
   OptTemperature (Options (backendRequest openAIReq)) = Temperature openAIReq) /\
  (SFltb float64_zero (Temperature openAIReq) = false ->
   OptTemperature (Options (backendRequest openAIReq)) = float64_zero).
Proof.
  unfold temperatureSet, backendRequest, buildOllamaRequest. simpl.
  destruct (SFltb float64_zero (Temperature openAIReq)) eqn:Hgt.
  - rewrite (SFltb_zero_not_zero _ Hgt). simpl. intuition congruence.
  - simpl. intuition congruence.
Qed.

Lemma num_predict_forwarded (openAIReq : OpenAIChatRequest) :
  (numPredictSet (backendRequest openAIReq) = true <-> 0 < MaxTokens openAIReq) /\
  (0 < MaxTokens openAIReq ->
   NumPredict (Options (backendRequest openAIReq)) = MaxTokens openAIReq) /\
  (MaxTokens openAIReq <= 0 ->
   NumPredict (Options (backendRequest openAIReq)) = 0).
Proof.
  unfold numPredictSet, backendRequest, buildOllamaRequest. simpl.
  destruct (Z.ltb_spec 0 (MaxTokens openAIReq)) as [Hgt|Hle].
  - assert ((MaxTokens openAIReq =? 0) = false) as -> by (apply Z.eqb_neq; lia).
    simpl. repeat split; auto; lia.
  - simpl. repeat split; auto; try lia; discriminate.
Qed.

(** C5: for a valid request, the request marshalled for the backend has its
    temperature option set exactly when the front temperature is above zero,
    and then to that same value; its num_predict option is set exactly when
    the front max-token count is above zero, and then to that same value.
    A zero or negative value (the decoder leaves an absent field at zero)
    leaves the option at zero, which omitempty drops. *)
Theorem sampling_options_forwarded (env : Env) (r : Request)
    (openAIReq : OpenAIChatRequest) :
  Method r = MethodPost ->
  json_decode_request env (Body r) = Ok openAIReq ->
  validRequest openAIReq ->
  Posts (serve env r)
  = match json_marshal env (backendRequest openAIReq) with
    | Ok jsonData => [ {| PostURL := generateURL;
                          PostContentType := CONTENT_TYPE_JSON;
                          PostBody := jsonData |} ]
    | Err _ => []
    end /\
  (temperatureSet (backendRequest openAIReq) = true
   <-> SFltb float64_zero (Temperature openAIReq) = true) /\
  (SFltb float64_zero (Temperature openAIReq) = true ->
   OptTemperature (Options (backendRequest openAIReq)) = Temperature openAIReq) /\
  (SFltb float64_zero (Temperature openAIReq) = false ->
   OptTemperature (Options (backendRequest openAIReq)) = float64_zero) /\
  (numPredictSet (backendRequest openAIReq) = true <-> 0 < MaxTokens openAIReq) /\
  (0 < MaxTokens openAIReq ->
   NumPredict (Options (backendRequest openAIReq)) = MaxTokens openAIReq) /\
  (MaxTokens openAIReq <= 0 ->
   NumPredict (Options (backendRequest openAIReq)) = 0).
Proof.
  intros Hm Hd Hv.
  destruct (temperature_forwarded openAIReq) as (Ht1 & Ht2 & Ht3).
  destruct (num_predict_forwarded openAIReq) as (Hn1 & Hn2 & Hn3).
  split; [exact (serve_valid_posts env r openAIReq Hm Hd Hv)|].
  repeat split; solve [apply Ht1 | apply Ht2 | apply Ht3
                      | apply Hn1 | apply Hn2 | apply Hn3].
Qed.

Lemma tunedRequest_valid : validRequest tunedRequest.
Proof. split; discriminate. Defined.

Lemma hiRequest_valid (stream : bool) : validRequest (hiRequest stream).
Proof. split; discriminate. Defined.

Lemma sampling_options_forwarded_witness :
  Posts (serve tunedEnv (post "{tuned}"))
  = [ {| PostURL := "http://localhost:11434/api/generate";
         PostContentType := "application/json";
         PostBody := "{json}" |} ] /\
  temperatureSet (backendRequest tunedRequest) = true /\
  OptTemperature (Options (backendRequest tunedRequest)) = half /\
  numPredictSet (backendRequest tunedRequest) = true /\
  NumPredict (Options (backendRequest tunedRequest)) = 64.
Proof.
  destruct (sampling_options_forwarded tunedEnv (post "{tuned}") tunedRequest
              eq_refl eq_refl tunedRequest_valid)
    as (Hposts & Htset & Ht & _ & Hnset & Hn & _).
  split; [exact Hposts|].
  split; [apply Htset; reflexivity|].
  split; [apply Ht; reflexivity|].
  split; [apply Hnset; reflexivity|].
  apply Hn; reflexivity.
Defined.

(** ** The stream flag *)

(** The stream flag of a valid request is not dropped: asked to stream, the
    handler asks the backend to stream. *)
Lemma stream_flag_reaches_backend :
  validRequest tunedRequest /\
  Stream tunedRequest = true /\
  ReqStream (backendRequest tunedRequest) <> false /\
  ~ (forall openAIReq : OpenAIChatRequest,
       validRequest openAIReq -> ReqStream (backendRequest openAIReq) = false).
Proof.
  split; [exact tunedRequest_valid|]. split; [reflexivity|].
  split; [discriminate|].
  intros Hignored. specialize (Hignored tunedRequest tunedRequest_valid).
  discriminate Hignored.
Qed.

(** C2, amended: for a valid request the stream flag is copied to the
    request marshalled for the backend, true as true and false as false;
    whatever the flag, the handler writes one response body. *)
Theorem stream_flag_forwarded (env : Env) (r : Request)
    (openAIReq : OpenAIChatRequest) :
  Method r = MethodPost ->
  json_decode_request env (Body r) = Ok openAIReq ->
  validRequest openAIReq ->
  ReqStream (backendRequest openAIReq) = Stream openAIReq /\
  Posts (serve env r)
  = match json_marshal env (backendRequest openAIReq) with
    | Ok jsonData => [ {| PostURL := generateURL;
                          PostContentType := CONTENT_TYPE_JSON;
                          PostBody := jsonData |} ]
    | Err _ => []
    end /\
  length (Written (Writer (serve env r))) = 1%nat.
Proof.
  intros Hm Hd Hv. split; [reflexivity|]. split.
  - exact (serve_valid_posts env r openAIReq Hm Hd Hv).
  - exact (serve_valid_one_body env r openAIReq Hm Hd Hv).
Qed.

Lemma stream_flag_forwarded_witness :
  ReqStream (backendRequest tunedRequest) = true /\
  Posts (serve tunedEnv (post "{tuned}"))
  = [ {| PostURL := "http://localhost:11434/api/generate";
         PostContentType := "application/json";
         PostBody := "{json}" |} ] /\
  length (Written (Writer (serve tunedEnv (post "{tuned}")))) = 1%nat.
Proof.
  exact (stream_flag_forwarded tunedEnv (post "{tuned}") tunedRequest
           eq_refl eq_refl tunedRequest_valid).
Defined.

(** ** Backend failures *)

(** C6: for a valid request that reaches the backend, a transport failure
    and a reply whose status is not 200 are both answered 500 with type
    server_error and code internal_error; for a non-200 reply the message
    holds the backend's status code in decimal and the reply's body text. *)
Theorem backend_failure_reported (env : Env) (r : Request)
    (openAIReq : OpenAIChatRequest) (jsonData : string) :
  Method r = MethodPost ->
  json_decode_request env (Body r) = Ok openAIReq ->
  validRequest openAIReq ->
  json_marshal env (backendRequest openAIReq) = Ok jsonData ->
  (forall err,
     http_post env generateURL CONTENT_TYPE_JSON jsonData = Err err ->
     errorReply (serve env r) StatusInternalServerError
                "server_error" "internal_error") /\
  (forall resp,
     http_post env generateURL CONTENT_TYPE_JSON jsonData = Ok resp ->
     StatusCode resp <> StatusOK ->
     Status (Writer (serve env r)) = Some StatusInternalServerError /\
     exists message,
       Written (Writer (serve env r))
       = [errorPayload message "server_error" "internal_error"] /\
       message = "Error calling Ollama API: ollama API error (status "
                 +:+ itoa (StatusCode resp) +:+ "): " +:+ BodyData resp /\
       contains message (itoa (StatusCode resp)) /\
       contains message (BodyData resp)).
Proof.
  intros Hm Hd Hv Hj.
  destruct (serve_valid env r openAIReq Hm Hd Hv) as [Ha _].
  unfold answered in Ha. split.
  - intros err Hp.
    rewrite (ollamaResult_transport env _ jsonData err Hj Hp) in Ha.
    destruct Ha as [Hs Hw]. split; [exact Hs | eexists; exact Hw].
  - intros resp Hp Hne.
    rewrite (ollamaResult_status env _ jsonData resp Hj Hp Hne) in Ha.
    destruct Ha as [Hs Hw]. split; [exact Hs|].
    eexists. split; [exact Hw|]. split; [|split].
    + now rewrite <- append_assoc.
    + apply contains_append_l, contains_middle.
    + do 3 apply contains_append_l. apply contains_suffix.
Qed.

Lemma backend_failure_reported_witness :
  errorReply (serve unreachableEnv (post "{hi}")) StatusInternalServerError
             "server_error" "internal_error" /\
  Status (Writer (serve overloadedEnv (post "{hi}")))
  = Some StatusInternalServerError /\
  exists message,
    Written (Writer (serve overloadedEnv (post "{hi}")))
    = [errorPayload message "server_error" "internal_error"] /\
    message = "Error calling Ollama API: ollama API error (status 503): model is loading" /\
    contains message "503" /\
    contains message "model is loading".
Proof.
  split.
  - exact (proj1 (backend_failure_reported unreachableEnv (post "{hi}")
                    (hiRequest false) "{json}" eq_refl eq_refl
                    (hiRequest_valid false) eq_refl)
                 _ eq_refl).
  - refine (proj2 (backend_failure_reported overloadedEnv (post "{hi}")
                     (hiRequest false) "{json}" eq_refl eq_refl
                     (hiRequest_valid false) eq_refl)
                  loadingReply eq_refl _).
    discriminate.
Defined.

(** ** The success response *)

(** C7: for a valid request whose backend call succeeds, the answer is 200
    with one choice, of index 0, role assistant, the backend's response text
    as content and finish reason stop; the object is chat.completion and the
    model is the front request's model. *)
Theorem success_response_shape (env : Env) (r : Request)
    (openAIReq : OpenAIChatRequest) (jsonData : string) (resp : HttpReply)
    (ollamaResp : OllamaResponse) :
  Method r = MethodPost ->
  json_decode_request env (Body r) = Ok openAIReq ->
  validRequest openAIReq ->
  json_marshal env (backendRequest openAIReq) = Ok jsonData ->
  http_post env generateURL CONTENT_TYPE_JSON jsonData = Ok resp ->
  StatusCode resp = StatusOK ->
  BodyErr resp = None ->
  json_unmarshal_response env (BodyData resp) = Ok ollamaResp ->
  Status (Writer (serve env r)) = Some StatusOK /\
  exists chat,
    Written (Writer (serve env r)) = [JSONChat chat] /\
    Choices chat = [ {| Index := 0;
                        Message := {| Role := "assistant";
                                      Content := Response ollamaResp |};
                        FinishReason := "stop" |} ] /\
    Object chat = "chat.completion" /\
    RespModel chat = Model openAIReq.
Proof.
  intros Hm Hd Hv Hj Hp Hs Hb Hu.
  destruct (serve_valid env r openAIReq Hm Hd Hv) as [Ha _].
  unfold answered in Ha.
  rewrite (ollamaResult_ok env _ jsonData resp ollamaResp Hj Hp Hs Hb Hu) in Ha.
  destruct Ha as [Hst Hw]. split; [exact Hst|].
  eexists. split; [exact Hw|]. repeat split.
Qed.

Lemma success_response_shape_witness :
  Status (Writer (serve helloEnv (post "{hi}"))) = Some StatusOK /\
  exists chat,
    Written (Writer (serve helloEnv (post "{hi}"))) = [JSONChat chat] /\
    Choices chat = [ {| Index := 0;
                        Message := {| Role := "assistant"; Content := "Hello!" |};
                        FinishReason := "stop" |} ] /\
    Object chat = "chat.completion" /\
    RespModel chat = "llama2".
Proof.
  exact (success_response_shape helloEnv (post "{hi}") (hiRequest false)
           "{json}" helloReply helloResponse eq_refl eq_refl
           (hiRequest_valid false) eq_refl eq_refl eq_refl eq_refl eq_refl).
Defined.

(** ** Token usage *)

Lemma len_nonneg (s : string) : 0 <= len s.
Proof. unfold len. lia. Qed.

(** Truncating once, after the addition, gives the sum of the two truncated
    parts or one more. *)
Lemma quot4_add_bounds (a b : Z) :
  0 <= a -> 0 <= b ->
  Z.quot a 4 + Z.quot b 4 <= Z.quot (a + b) 4 <= Z.quot a 4 + Z.quot b 4 + 1.
Proof.
  intros Ha Hb. rewrite !Z.quot_div_nonneg by lia.
  Z.div_mod_to_equations. lia.
Qed.

(** The three usage fields of any response the handler builds. *)
Lemma buildOpenAIResponse_usage (env : Env) (prompt : string)
    (ollamaReq : OllamaRequest) (ollamaResp : OllamaResponse) :
  RespUsage (buildOpenAIResponse env prompt ollamaReq ollamaResp)
  = {| PromptTokens := Z.quot (len prompt) 4;
       CompletionTokens := Z.quot (len (Response ollamaResp)) 4;
       TotalTokens := Z.quot (len prompt + len (Response ollamaResp)) 4 |}.
Proof. reflexivity. Qed.

(** The handler run on the one-message request [user: Hi!] against a backend
    answering [Hello!]. The prompt has 10 bytes and the completion 6:
    prompt_tokens is 2 and completion_tokens is 1, yet total_tokens is
    16/4 = 4, not their sum 3. *)
Lemma usage_total_exceeds_sum :
  len (convertMessagesToPrompt (Messages (hiRequest false))) = 10 /\
  len (Response helloResponse) = 6 /\
  exists chat,
    Status (Writer (serve helloEnv (post "{hi}"))) = Some StatusOK /\
    Written (Writer (serve helloEnv (post "{hi}"))) = [JSONChat chat] /\
    PromptTokens (RespUsage chat) = 2 /\
    CompletionTokens (RespUsage chat) = 1 /\
    TotalTokens (RespUsage chat) = 4 /\
    TotalTokens (RespUsage chat)
    <> PromptTokens (RespUsage chat) + CompletionTokens (RespUsage chat).
Proof.
  split; [reflexivity|]. split; [reflexivity|].
  eexists. split; [reflexivity|]. split; [reflexivity|].
  repeat split. discriminate.
Qed.

(** C1, amended: in every successful (status 200) response, prompt_tokens is
    the prompt's length over 4 and completion_tokens the completion text's
    length over 4, both truncated; total_tokens is the two lengths added and
    then divided by 4, which is the sum of the two parts or one more. *)
Theorem usage_token_heuristic (env : Env) (r : Request)
    (openAIReq : OpenAIChatRequest) (jsonData : string) (resp : HttpReply)
    (ollamaResp : OllamaResponse) :
  Method r = MethodPost ->
  json_decode_request env (Body r) = Ok openAIReq ->
  validRequest openAIReq ->
  json_marshal env (backendRequest openAIReq) = Ok jsonData ->
  http_post env generateURL CONTENT_TYPE_JSON jsonData = Ok resp ->
  StatusCode resp = StatusOK ->
  BodyErr resp = None ->
  json_unmarshal_response env (BodyData resp) = Ok ollamaResp ->
  Status (Writer (serve env r)) = Some StatusOK /\
  exists chat,
    Written (Writer (serve env r)) = [JSONChat chat] /\
    PromptTokens (RespUsage chat)
    = Z.quot (len (convertMessagesToPrompt (Messages openAIReq))) 4 /\
    CompletionTokens (RespUsage chat) = Z.quot (len (Response ollamaResp)) 4 /\
    TotalTokens (RespUsage chat)
    = Z.quot (len (convertMessagesToPrompt (Messages openAIReq))
              + len (Response ollamaResp)) 4 /\
    PromptTokens (RespUsage chat) + CompletionTokens (RespUsage chat)
    <= TotalTokens (RespUsage chat)
    <= PromptTokens (RespUsage chat) + CompletionTokens (RespUsage chat) + 1.
Proof.
  intros Hm Hd Hv Hj Hp Hs Hb Hu.
  destruct (serve_valid env r openAIReq Hm Hd Hv) as [Ha _].
  unfold answered in Ha.
  rewrite (ollamaResult_ok env _ jsonData resp ollamaResp Hj Hp Hs Hb Hu) in Ha.
  destruct Ha as [Hst Hw]. split; [exact Hst|].
  eexists. split; [exact Hw|].
  rewrite buildOpenAIResponse_usage. cbv [PromptTokens CompletionTokens TotalTokens].
  split; [reflexivity|]. split; [reflexivity|]. split; [reflexivity|].
  apply quot4_add_bounds; apply len_nonneg.
Qed.

Lemma usage_token_heuristic_witness :
  Status (Writer (serve helloEnv (post "{hi}"))) = Some StatusOK /\
  exists chat,
    Written (Writer (serve helloEnv (post "{hi}"))) = [JSONChat chat] /\
    PromptTokens (RespUsage chat) = Z.quot 10 4 /\
    CompletionTokens (RespUsage chat) = Z.quot 6 4 /\
    TotalTokens (RespUsage chat) = Z.quot (10 + 6) 4 /\
    PromptTokens (RespUsage chat) + CompletionTokens (RespUsage chat)
    <= TotalTokens (RespUsage chat)
    <= PromptTokens (RespUsage chat) + CompletionTokens (RespUsage chat) + 1.
Proof.
  exact (usage_token_heuristic helloEnv (post "{hi}") (hiRequest false)
           "{json}" helloReply helloResponse eq_refl eq_refl
           (hiRequest_valid false) eq_refl eq_refl eq_refl eq_refl eq_refl).
Defined.

(** ** Independence from the backend's model and done fields *)

Lemma serve_response_only (env : Env) (r : Request) (a b : OllamaResponse) :
  Response a = Response b ->
  serve (withBackendResponse env a) r = serve (withBackendResponse env b) r.
Proof.
  intros Hab.
  cbv beta iota zeta delta
    [serve exec handler corsMiddleware handleChatCompletions sendToOllama
     bind ret setHeader httpPost newWorld newResponseWriter
     withBackendResponse json_decode_request json_marshal http_post
     json_unmarshal_response Writer Posts Status Written Header SentHeader
     snd fst].
  destruct (String.eqb (Method r) MethodOptions); [reflexivity|].
  destruct (negb (String.eqb (Method r) MethodPost)); [reflexivity|].
  destruct env as [decode marshal posting unmarshal draw now].
  destruct (decode (Body r)) as [openAIReq|err]; [|reflexivity].
  destruct (length (Messages openAIReq) =? 0)%nat; [reflexivity|].
  destruct (String.eqb (Model openAIReq) ""); [reflexivity|].
  destruct (marshal _) as [jsonData|err]; [|reflexivity].
  destruct (posting _ _ jsonData) as [resp|err]; [|reflexivity].
  destruct (negb (StatusCode resp =? StatusOK)); [reflexivity|].
  destruct (BodyErr resp); [reflexivity|].
  cbv beta iota.
  unfold buildOpenAIResponse. rewrite Hab. reflexivity.
Qed.

(** C10: the answer does not depend on the model and done fields of the
    backend's reply: two replies with the same response text give the same
    served world (status, headers, body, backend calls), for the same
    request, clock and random draws. A reply that parses, whatever its done
    field says, is answered 200 with the completion built from its text. *)
Theorem response_ignores_model_and_done (env : Env) (r : Request)
    (a b : OllamaResponse) :
  Response a = Response b ->
  serve (withBackendResponse env a) r = serve (withBackendResponse env b) r /\
  forall (openAIReq : OpenAIChatRequest) (jsonData : string) (resp : HttpReply),
    Method r = MethodPost ->
    json_decode_request env (Body r) = Ok openAIReq ->
    validRequest openAIReq ->
    json_marshal env (backendRequest openAIReq) = Ok jsonData ->
    http_post env generateURL CONTENT_TYPE_JSON jsonData = Ok resp ->
    StatusCode resp = StatusOK ->
    BodyErr resp = None ->
    Status (Writer (serve (withBackendResponse env a) r)) = Some StatusOK /\
    exists chat,
      Written (Writer (serve (withBackendResponse env a) r)) = [JSONChat chat] /\
      Choices chat = [ {| Index := 0;
                          Message := {| Role := "assistant";
                                        Content := Response a |};
                          FinishReason := "stop" |} ].
Proof.
  intros Hab. split; [exact (serve_response_only env r a b Hab)|].
  intros openAIReq jsonData resp Hm Hd Hv Hj Hp Hs Hb.
  destruct (serve_valid (withBackendResponse env a) r openAIReq Hm Hd Hv)
    as [Ha _].
  unfold answered in Ha.
  rewrite (ollamaResult_ok (withBackendResponse env a) _ jsonData resp a
             Hj Hp Hs Hb eq_refl) in Ha.
  destruct Ha as [Hst Hw]. split; [exact Hst|].
  eexists. split; [exact Hw|]. reflexivity.
Qed.

Lemma response_ignores_model_and_done_witness :
  serve (withBackendResponse helloEnv
           {| BackModel := "mistral"; Response := "Hello!"; Done := false |})
        (post "{hi}")
  = serve (withBackendResponse helloEnv helloResponse) (post "{hi}") /\
  Status (Writer (serve (withBackendResponse helloEnv
                           {| BackModel := "mistral"; Response := "Hello!";
                              Done := false |})
                        (post "{hi}"))) = Some StatusOK.
Proof.
  destruct (response_ignores_model_and_done helloEnv (post "{hi}")
              {| BackModel := "mistral"; Response := "Hello!"; Done := false |}
              helloResponse eq_refl) as [Hsame Hdone].
  split; [exact Hsame|].
  exact (proj1 (Hdone (hiRequest false) "{json}"%string helloReply eq_refl eq_refl
                  (hiRequest_valid false) eq_refl eq_refl eq_refl eq_refl)).
Defined.

(** * Further properties *)

(** ** Prompt flattening: composition, size, and what it loses *)

Lemma spec_prompt_app (front back : list ChatMessage) :
  spec_prompt (front ++ back) = spec_prompt front +:+ spec_prompt back.
Proof.
  unfold spec_prompt. induction front as [|msg front IH]; [reflexivity|].
  simpl. unfold spec_prompt in IH. rewrite IH. now rewrite append_assoc.
Qed.

Lemma convertMessagesToPrompt_spec (messages : list ChatMessage) :
  convertMessagesToPrompt messages = spec_prompt messages.
Proof. unfold convertMessagesToPrompt. now rewrite fold_append_message. Qed.

(** Flattening a conversation that continues another appends to the prompt
    of the first: the prompt of [front ++ back] is the prompt of [front]
    followed by the prompt of [back], and no messages give the empty prompt. *)
Theorem convertMessagesToPrompt_app (front back : list ChatMessage) :
  convertMessagesToPrompt (front ++ back)
  = convertMessagesToPrompt front +:+ convertMessagesToPrompt back
  /\ convertMessagesToPrompt [] = "".
Proof.
  split; [|reflexivity].
  rewrite !convertMessagesToPrompt_spec. apply spec_prompt_app.
Qed.

Lemma len_append (a b : string) : len (a +:+ b) = len a + len b.
Proof.
  unfold len. induction a as [|c a IH]; [reflexivity|].
  rewrite append_cons. simpl String.length. lia.
Qed.

Lemma prompt_len_bytes (messages : list ChatMessage) :
  len (convertMessagesToPrompt messages) = promptBytes messages.
Proof.
  rewrite convertMessagesToPrompt_spec.
  induction messages as [|msg rest IH]; [reflexivity|].
  change (spec_prompt (msg :: rest))
    with (prompt_line msg +:+ spec_prompt rest).
  change (promptBytes (msg :: rest))
    with (messageBytes msg + promptBytes rest).
  rewrite len_append, IH. f_equal.
  unfold prompt_line, messageBytes. rewrite !len_append.
  change (len ": ") with 2. change (len newline) with 1. lia.
Qed.

Lemma promptBytes_lower (messages : list ChatMessage) :
  3 * Z.of_nat (length messages) <= promptBytes messages.
Proof.
  induction messages as [|msg rest IH]; [reflexivity|].
  change (promptBytes (msg :: rest))
    with (messageBytes msg + promptBytes rest).
  unfold messageBytes.
  pose proof (len_nonneg (Role msg)). pose proof (len_nonneg (Content msg)).
  cbn [length]. lia.
Qed.

(** The prompt's length: every message costs its role, its content and
    three more bytes, so a prompt of [n] messages has at least [3 * n]
    bytes, also when roles and contents are empty. *)
Theorem convertMessagesToPrompt_len (messages : list ChatMessage) :
  len (convertMessagesToPrompt messages) = promptBytes messages /\
  3 * Z.of_nat (length messages) <= len (convertMessagesToPrompt messages).
Proof.
  rewrite prompt_len_bytes. split; [reflexivity | apply promptBytes_lower].
Qed.

(** Flattening is lossy: a content that holds a newline followed by
    ["<role>: <content>"] gives the very prompt of two separate messages, so
    the backend cannot tell one message forging a second from two messages. *)
Theorem convertMessagesToPrompt_forged (role content role' content' : string) :
  convertMessagesToPrompt
    [ {| Role := role;
         Content := content +:+ newline +:+ role' +:+ ": " +:+ content' |} ]
  = convertMessagesToPrompt
      [ {| Role := role; Content := content |};
        {| Role := role'; Content := content' |} ].
Proof.
  rewrite !convertMessagesToPrompt_spec. unfold spec_prompt, prompt_line.
  cbn [map fold_right join_lines Role Content].
  rewrite !append_nil_r, !append_assoc. reflexivity.
Qed.

(** ** The random identifier *)

Lemma length_string_of_list_ascii (l : list ascii) :
  String.length (string_of_list_ascii l) = length l.
Proof. induction l as [|c l IH]; simpl; [reflexivity | now rewrite IH]. Qed.

Lemma byte_at_in (s : string) (i : nat) :
  (i < String.length s)%nat -> byteOf (byte_at s i) s.
Proof.
  unfold byteOf, byte_at. revert i.
  induction s as [|c s IH]; intros i Hi; simpl in Hi; [lia|].
  destruct i as [|i]; simpl; [now left|].
  right. apply IH. lia.
Qed.

Lemma generateRandomString_length (env : Env) (n : nat) :
  String.length (generateRandomString env n) = n.
Proof.
  unfold generateRandomString.
  now rewrite length_string_of_list_ascii, length_map, length_seq.
Qed.

Lemma generateRandomString_bytes (env : Env) (n : nat) (c : ascii) :
  byteOf c (generateRandomString env n) -> byteOf c letters.
Proof.
  unfold generateRandomString, byteOf at 1.
  rewrite list_ascii_of_string_of_list_ascii, in_map_iff.
  intros (i & <- & _). apply byte_at_in. unfold Intn.
  apply Nat.mod_upper_bound. discriminate.
Qed.

(** [generateRandomString(n)] returns exactly [n] bytes, each of them a byte
    of the alphabet, whatever the random source draws: the index into the
    alphabet is never out of range. *)
Theorem generateRandomString_alphabet (env : Env) (n : nat) :
  String.length (generateRandomString env n) = n /\
  forall c, byteOf c (generateRandomString env n) -> byteOf c letters.
Proof.
  split; [apply generateRandomString_length|].
  intros c. apply generateRandomString_bytes.
Qed.

Lemma generateRandomString_alphabet_witness :
  String.length (generateRandomString helloEnv 10) = 10%nat /\
  byteOf "T"%char letters.
Proof.
  destruct (generateRandomString_alphabet helloEnv 10) as [Hlen Hbytes].
  split; [exact Hlen|].
  apply Hbytes. right. left. reflexivity.
Defined.

(** ** Sampling options never go below zero *)

(** Whatever the front request asks for, the options handed to the backend
    are never negative: num_predict is at least 0, and the temperature is
    neither below zero nor a NaN. *)
Theorem backend_options_nonnegative (openAIReq : OpenAIChatRequest) :
  0 <= NumPredict (Options (backendRequest openAIReq)) /\
  SFltb (OptTemperature (Options (backendRequest openAIReq))) float64_zero = false /\
  isNaN (OptTemperature (Options (backendRequest openAIReq))) = false.
Proof.
  unfold backendRequest, buildOllamaRequest. cbn [Options NumPredict OptTemperature].
  split; [|split].
  - destruct (Z.ltb_spec 0 (MaxTokens openAIReq)); lia.
  - destruct (SFltb float64_zero (Temperature openAIReq)) eqn:Hgt; [|reflexivity].
    destruct (Temperature openAIReq) as [s|s| |s m e]; simpl in *;
      try discriminate; destruct s; try discriminate; reflexivity.
  - destruct (SFltb float64_zero (Temperature openAIReq)) eqn:Hgt; [|reflexivity].
    destruct (Temperature openAIReq); simpl in *; try discriminate; reflexivity.
Qed.

(** ** Every way a request can end *)

Lemma ollamaResult_marshal (env : Env) (req : OllamaRequest) (err : string) :
  json_marshal env req = Err err ->
  ollamaResult env req = Err ("failed to marshal request: " +:+ err).
Proof. intros Hj. run_send. rewrite Hj. reflexivity. Qed.

Lemma ollamaResult_read (env : Env) (req : OllamaRequest)
    (jsonData : string) (resp : HttpReply) (err : string) :
  json_marshal env req = Ok jsonData ->
  http_post env generateURL CONTENT_TYPE_JSON jsonData = Ok resp ->
  StatusCode resp = StatusOK ->
  BodyErr resp = Some err ->
  ollamaResult env req = Err ("failed to read response: " +:+ err).
Proof.
  intros Hj Hp Hs Hb. run_send. rewrite Hj. cbv beta iota.
  fold generateURL. rewrite Hp. cbv beta iota.
  rewrite Hs, Hb. reflexivity.
Qed.

Lemma ollamaResult_parse (env : Env) (req : OllamaRequest)
    (jsonData : string) (resp : HttpReply) (err : string) :
  json_marshal env req = Ok jsonData ->
  http_post env generateURL CONTENT_TYPE_JSON jsonData = Ok resp ->
  StatusCode resp = StatusOK ->
  BodyErr resp = None ->
  json_unmarshal_response env (BodyData resp) = Err err ->
  ollamaResult env req = Err ("failed to parse response: " +:+ err).
Proof.
  intros Hj Hp Hs Hb Hu. run_send. rewrite Hj. cbv beta iota.
  fold generateURL. rewrite Hp. cbv beta iota.
  rewrite Hs, Hb. change (negb (StatusOK =? StatusOK)) with false.
  cbv beta iota. rewrite Hu. reflexivity.
Qed.

(** Every error of [sendToOllama] names the step that failed. *)
Lemma ollamaResult_err_cases (env : Env) (req : OllamaRequest) (err : string) :
  ollamaResult env req = Err err ->
  startsWith err "failed to marshal request: " \/
  startsWith err "failed to connect to Ollama: " \/
  startsWith err "ollama API error (status " \/
  startsWith err "failed to read response: " \/
  startsWith err "failed to parse response: ".
Proof.
  run_send. destruct (json_marshal env req) as [jsonData|e]; cbv beta iota.
  - destruct (http_post env _ _ jsonData) as [resp|e]; cbv beta iota.
    + destruct (negb (StatusCode resp =? StatusOK)); cbv beta iota.
      * intros [= <-]. right. right. left. eexists. reflexivity.
      * destruct (BodyErr resp) as [e|]; cbv beta iota.
        -- intros [= <-]. do 3 right. left. eexists. reflexivity.
        -- destruct (json_unmarshal_response env (BodyData resp)) as [r|e];
             [discriminate|].
           intros [= <-]. do 4 right. eexists. reflexivity.
    + intros [= <-]. right. left. eexists. reflexivity.
  - intros [= <-]. left. eexists. reflexivity.
Qed.

(** The six ways [serve] ends, by the method, the decoder's verdict and the
    two validation checks. *)
Lemma serve_cases (env : Env) (r : Request) :
  (Method r = MethodOptions /\
   outcome (serve env r) = (Some StatusOK, [], [])) \/
  (Method r <> MethodOptions /\ Method r <> MethodPost /\
   outcome (serve env r)
   = (Some StatusMethodNotAllowed,
      [errorPayload "Method not allowed" "invalid_request_error"
                    "method_not_allowed"], [])) \/
  (Method r = MethodPost /\
   (exists err, json_decode_request env (Body r) = Err err) /\
   outcome (serve env r)
   = (Some StatusBadRequest,
      [errorPayload "Invalid request body" "invalid_request_error"
                    "invalid_body"], [])) \/
  (Method r = MethodPost /\
   (exists openAIReq, json_decode_request env (Body r) = Ok openAIReq
                      /\ Messages openAIReq = []) /\
   outcome (serve env r)
   = (Some StatusBadRequest,
      [errorPayload "Messages array is empty" "invalid_request_error"
                    "invalid_messages"], [])) \/
  (Method r = MethodPost /\
   (exists openAIReq, json_decode_request env (Body r) = Ok openAIReq
                      /\ Messages openAIReq <> [] /\ Model openAIReq = "") /\
   outcome (serve env r)
   = (Some StatusBadRequest,
      [errorPayload "Model is required" "invalid_request_error"
                    "invalid_model"], [])) \/
  (Method r = MethodPost /\
   exists openAIReq,
     json_decode_request env (Body r) = Ok openAIReq /\
     validRequest openAIReq /\
     answered env openAIReq (serve env r) /\
     Posts (serve env r) = ollamaPosts env (backendRequest openAIReq)).
Proof.
  destruct (String.eqb_spec (Method r) MethodOptions) as [Ho|Ho].
  { left. split; [exact Ho|]. unfold outcome. run_handler. rewrite Ho.
    reflexivity. }
  right. apply String.eqb_neq in Ho as Hob.
  destruct (String.eqb_spec (Method r) MethodPost) as [Hm|Hm].
  2:{ left. split; [exact Ho|]. split; [exact Hm|].
      apply String.eqb_neq in Hm. unfold outcome. run_handler.
      rewrite Hob, Hm. reflexivity. }
  right. destruct (json_decode_request env (Body r)) as [openAIReq|err] eqn:Hd.
  2:{ left. split; [exact Hm|]. split; [eauto|].
      unfold outcome. run_handler. rewrite Hob, (method_post_eqb r Hm), Hd.
      reflexivity. }
  right. destruct (Messages openAIReq) as [|msg rest] eqn:Hmsgs.
  { left. split; [exact Hm|]. split; [eauto|].
    destruct (serve_invalid_messages env r openAIReq Hm Hd Hmsgs)
      as (Hs & Hw & Hp).
    unfold outcome. now rewrite Hs, Hw, Hp. }
  right. assert (Messages openAIReq <> []) as Hne by (rewrite Hmsgs; discriminate).
  destruct (String.eqb_spec (Model openAIReq) "") as [Hmodel|Hmodel].
  { left. split; [exact Hm|]. split; [eauto|].
    unfold outcome. run_handler. rewrite Hob, (method_post_eqb r Hm), Hd.
    cbv beta iota. rewrite (messages_nonempty_eqb _ Hne), Hmodel.
    reflexivity. }
  right. split; [exact Hm|]. exists openAIReq.
  split; [reflexivity|]. split; [exact (conj Hne Hmodel)|].
  exact (serve_valid env r openAIReq Hm Hd (conj Hne Hmodel)).
Qed.

Lemma outcome_inv (w : World) (status : option Z) (body : list Payload)
    (posts : list PostCall) :
  outcome w = (status, body, posts) ->
  Status (Writer w) = status /\ Written (Writer w) = body /\ Posts w = posts.
Proof. unfold outcome. intros [= -> -> ->]. auto. Qed.

Lemma post_not_options (r : Request) :
  Method r = MethodPost -> Method r <> MethodOptions.
Proof. intros -> . discriminate. Qed.

Lemma answered_shape (env : Env) (openAIReq : OpenAIChatRequest) (w : World) :
  answered env openAIReq w ->
  (exists chat, Status (Writer w) = Some StatusOK /\
                Written (Writer w) = [JSONChat chat]) \/
  (exists err,
     ollamaResult env (backendRequest openAIReq) = Err err /\
     Status (Writer w) = Some StatusInternalServerError /\
     Written (Writer w)
     = [errorPayload ("Error calling Ollama API: " +:+ err)
                     "server_error" "internal_error"]).
Proof.
  unfold answered.
  destruct (ollamaResult env (backendRequest openAIReq)) as [ollamaResp|err];
    intros [Hs Hw]; [left | right]; eauto.
Qed.

(** Every request is answered in one of three shapes: an OPTIONS request
    with 200 and no body; otherwise either 200 with exactly one completion,
    or exactly one error body whose status, type and code are one of
    405 invalid_request_error/method_not_allowed,
    400 invalid_request_error/invalid_body, invalid_messages or invalid_model,
    500 server_error/internal_error. A completion never comes with an error
    status, an error body never with 200. *)
Theorem every_answer_shape (env : Env) (r : Request) :
  (Method r = MethodOptions /\
   Status (Writer (serve env r)) = Some StatusOK /\
   Written (Writer (serve env r)) = []) \/
  (Method r <> MethodOptions /\
   exists chat,
     Status (Writer (serve env r)) = Some StatusOK /\
     Written (Writer (serve env r)) = [JSONChat chat]) \/
  (Method r <> MethodOptions /\
   exists status message errorType code,
     Status (Writer (serve env r)) = Some status /\
     Written (Writer (serve env r)) = [errorPayload message errorType code] /\
     errorTaxonomy status errorType code).
Proof.
  unfold outcome, errorTaxonomy.
  destruct (serve_cases env r)
    as [(Ho & Hout) | [(Ho & _ & Hout) | [(Hm & _ & Hout)
       | [(Hm & _ & Hout) | [(Hm & _ & Hout)
       | (Hm & openAIReq & _ & _ & Ha & _)]]]]];
    try (apply outcome_inv in Hout as (Hs & Hw & _)).
  - left. auto.
  - right. right. split; [exact Ho|]. do 4 eexists.
    split; [exact Hs|]. split; [exact Hw|]. left. auto.
  - right. right. split; [exact (post_not_options r Hm)|]. do 4 eexists.
    split; [exact Hs|]. split; [exact Hw|]. right. left. auto.
  - right. right. split; [exact (post_not_options r Hm)|]. do 4 eexists.
    split; [exact Hs|]. split; [exact Hw|]. right. left. auto.
  - right. right. split; [exact (post_not_options r Hm)|]. do 4 eexists.
    split; [exact Hs|]. split; [exact Hw|]. right. left. auto 6.
  - right. destruct (answered_shape env openAIReq _ Ha)
      as [(chat & Hs & Hw) | (err & _ & Hs & Hw)].
    + left. split; [exact (post_not_options r Hm)|]. eauto.
    + right. split; [exact (post_not_options r Hm)|]. do 4 eexists.
      split; [exact Hs|]. split; [exact Hw|]. right. right. auto.
Qed.

(** The message of an error body. A client error (invalid_request_error)
    carries one of four fixed texts, nothing of the request, and comes
    without any backend call. A server error carries
    ["Error calling Ollama API: "] followed by the backend call's error,
    which names the step that failed: marshal, connect, status, read or
    parse. *)
Theorem error_messages (env : Env) (r : Request)
    (message errorType code : string) :
  Written (Writer (serve env r)) = [errorPayload message errorType code] ->
  (errorType = "invalid_request_error" /\
   Posts (serve env r) = [] /\
   (message = "Method not allowed" \/ message = "Invalid request body" \/
    message = "Messages array is empty" \/ message = "Model is required")) \/
  (errorType = "server_error" /\
   exists err,
     message = "Error calling Ollama API: " +:+ err /\
     (startsWith err "failed to marshal request: " \/
      startsWith err "failed to connect to Ollama: " \/
      startsWith err "ollama API error (status " \/
      startsWith err "failed to read response: " \/
      startsWith err "failed to parse response: ")).
Proof.
  intros Hbody.
  destruct (serve_cases env r)
    as [(_ & Hout) | [(_ & _ & Hout) | [(_ & _ & Hout)
       | [(_ & _ & Hout) | [(_ & _ & Hout)
       | (_ & openAIReq & _ & _ & Ha & _)]]]]];
    try (apply outcome_inv in Hout as (Hs & Hw & Hp); rewrite Hw in Hbody).
  - discriminate Hbody.
  - injection Hbody as <- <- <-. left.
    split; [reflexivity|]. split; [exact Hp|]. left. reflexivity.
  - injection Hbody as <- <- <-. left.
    split; [reflexivity|]. split; [exact Hp|]. right. left. reflexivity.
  - injection Hbody as <- <- <-. left.
    split; [reflexivity|]. split; [exact Hp|]. do 2 right. left. reflexivity.
  - injection Hbody as <- <- <-. left.
    split; [reflexivity|]. split; [exact Hp|]. do 3 right. reflexivity.
  - destruct (answered_shape env openAIReq _ Ha)
      as [(chat & _ & Hw) | (err & Herr & _ & Hw)];
      rewrite Hw in Hbody; [discriminate Hbody|].
    injection Hbody as <- <- <-. right. split; [reflexivity|].
    exists err. split; [reflexivity|].
    exact (ollamaResult_err_cases env _ err Herr).
Qed.

Lemma error_messages_witness :
  exists err,
    "Error calling Ollama API: ollama API error (status 503): model is loading"
    = "Error calling Ollama API: " +:+ err /\
    (startsWith err "failed to marshal request: " \/
     startsWith err "failed to connect to Ollama: " \/
     startsWith err "ollama API error (status " \/
     startsWith err "failed to read response: " \/
     startsWith err "failed to parse response: ").
Proof.
  destruct (error_messages overloadedEnv (post "{hi}")
              "Error calling Ollama API: ollama API error (status 503): model is loading"
              "server_error" "internal_error" eq_refl)
    as [(Hclient & _) | (_ & Hserver)].
  - discriminate Hclient.
  - exact Hserver.
Defined.

(** A request makes at most one backend call, and only a POST that decodes
    to a request with messages and a model, and that marshals, makes one:
    the marshalled request posted as JSON to the generate URL. Nothing is
    retried, whatever the backend answers. *)
Theorem backend_called_at_most_once (env : Env) (r : Request) :
  Posts (serve env r) = [] \/
  exists openAIReq jsonData,
    Method r = MethodPost /\
    json_decode_request env (Body r) = Ok openAIReq /\
    validRequest openAIReq /\
    json_marshal env (backendRequest openAIReq) = Ok jsonData /\
    Posts (serve env r) = [generateCall jsonData].
Proof.
  unfold outcome.
  destruct (serve_cases env r)
    as [(_ & Hout) | [(_ & _ & Hout) | [(_ & _ & Hout)
       | [(_ & _ & Hout) | [(_ & _ & Hout)
       | (Hm & openAIReq & Hd & Hv & _ & Hp)]]]]];
    try (apply outcome_inv in Hout as (Hs & Hw & Hp); left; exact Hp).
  rewrite ollamaPosts_marshal in Hp.
  destruct (json_marshal env (backendRequest openAIReq)) as [jsonData|err] eqn:Hj.
  - right. exists openAIReq, jsonData. auto.
  - left. exact Hp.
Qed.

(** ** Failures around the backend call *)

(** A valid request that does not marshal is answered 500
    server_error/internal_error, the message naming the marshal error, and
    the backend is not called at all. *)
Theorem marshal_failure_not_sent (env : Env) (r : Request)
    (openAIReq : OpenAIChatRequest) (err : string) :
  Method r = MethodPost ->
  json_decode_request env (Body r) = Ok openAIReq ->
  validRequest openAIReq ->
  json_marshal env (backendRequest openAIReq) = Err err ->
  outcome (serve env r)
  = (Some StatusInternalServerError,
     [errorPayload ("Error calling Ollama API: failed to marshal request: " +:+ err)
                   "server_error" "internal_error"],
     []).
Proof.
  intros Hm Hd Hv Hj.
  destruct (serve_valid env r openAIReq Hm Hd Hv) as [Ha Hp].
  unfold answered in Ha.
  rewrite (ollamaResult_marshal env _ err Hj) in Ha.
  rewrite ollamaPosts_marshal, Hj in Hp.
  destruct Ha as [Hs Hw]. unfold outcome. rewrite Hs, Hw, Hp.
  now rewrite <- append_assoc.
Qed.

Lemma marshal_failure_not_sent_witness :
  outcome (serve unmarshallableEnv (post "{hi}"))
  = (Some 500,
     [errorPayload
        "Error calling Ollama API: failed to marshal request: json: unsupported value: +Inf"
        "server_error" "internal_error"],
     []).
Proof.
  exact (marshal_failure_not_sent unmarshallableEnv (post "{hi}")
           (hiRequest false) "json: unsupported value: +Inf"
           eq_refl eq_refl (hiRequest_valid false) eq_refl).
Defined.

(** A backend reply with status 200 is still a failure when its body cannot
    be read to the end or does not parse: the answer is 500
    server_error/internal_error, the message naming the read or the parse
    error, after the one call made. A body that broke off is not parsed. *)
Theorem unusable_reply_reported (env : Env) (r : Request)
    (openAIReq : OpenAIChatRequest) (jsonData : string) (resp : HttpReply) :
  Method r = MethodPost ->
  json_decode_request env (Body r) = Ok openAIReq ->
  validRequest openAIReq ->
  json_marshal env (backendRequest openAIReq) = Ok jsonData ->
  http_post env generateURL CONTENT_TYPE_JSON jsonData = Ok resp ->
  StatusCode resp = StatusOK ->
  (forall err,
     BodyErr resp = Some err ->
     outcome (serve env r)
     = (Some StatusInternalServerError,
        [errorPayload ("Error calling Ollama API: failed to read response: " +:+ err)
                      "server_error" "internal_error"],
        [generateCall jsonData])) /\
  (forall err,
     BodyErr resp = None ->
     json_unmarshal_response env (BodyData resp) = Err err ->
     outcome (serve env r)
     = (Some StatusInternalServerError,
        [errorPayload ("Error calling Ollama API: failed to parse response: " +:+ err)
                      "server_error" "internal_error"],
        [generateCall jsonData])).
Proof.
  intros Hm Hd Hv Hj Hp Hs.
  destruct (serve_valid env r openAIReq Hm Hd Hv) as [Ha Hposts].
  unfold answered in Ha. rewrite ollamaPosts_marshal, Hj in Hposts.
  split.
  - intros err Hb.
    rewrite (ollamaResult_read env _ jsonData resp err Hj Hp Hs Hb) in Ha.
    destruct Ha as [Hst Hw]. unfold outcome. rewrite Hst, Hw, Hposts.
    now rewrite <- append_assoc.
  - intros err Hb Hu.
    rewrite (ollamaResult_parse env _ jsonData resp err Hj Hp Hs Hb Hu) in Ha.
    destruct Ha as [Hst Hw]. unfold outcome. rewrite Hst, Hw, Hposts.
    now rewrite <- append_assoc.
Qed.

Lemma unusable_reply_reported_witness :
  outcome (serve brokenReadEnv (post "{hi}"))
  = (Some 500,
     [errorPayload
        "Error calling Ollama API: failed to read response: unexpected EOF"
        "server_error" "internal_error"],
     [generateCall "{json}"]) /\
  outcome (serve garbledEnv (post "{hi}"))
  = (Some 500,
     [errorPayload
        "Error calling Ollama API: failed to parse response: invalid character 'o' in literal null"
        "server_error" "internal_error"],
     [generateCall "{json}"]).
Proof.
  split.
  - exact (proj1 (unusable_reply_reported brokenReadEnv (post "{hi}")
                    (hiRequest false) "{json}" brokenReply eq_refl eq_refl
                    (hiRequest_valid false) eq_refl eq_refl eq_refl)
                 "unexpected EOF"%string eq_refl).
  - exact (proj2 (unusable_reply_reported garbledEnv (post "{hi}")
                    (hiRequest false) "{json}" helloReply eq_refl eq_refl
                    (hiRequest_valid false) eq_refl eq_refl eq_refl)
                 "invalid character 'o' in literal null"%string
                 eq_refl eq_refl).
Defined.

(** ** Response headers *)

(** The headers sent: the cross-origin ones alone for OPTIONS, and with the
    JSON content type for every other request, however it ends. *)
Lemma serve_sent_header (env : Env) (r : Request) :
  SentHeader (Writer (serve env r))
  = if String.eqb (Method r) MethodOptions then corsHeaders
    else <["Content-Type" := CONTENT_TYPE_JSON]> corsHeaders.
Proof.
  cbv beta iota zeta delta
    [serve exec handler corsMiddleware handleChatCompletions bind setHeader
     writeHeader writeHeaderRW newWorld newResponseWriter Writer Posts Status
     Written Header SentHeader snd fst].
  fold corsHeaders.
  destruct (String.eqb (Method r) MethodOptions); [reflexivity|].
  destruct (negb (String.eqb (Method r) MethodPost)).
  { run_handler. fold corsHeaders. now rewrite insert_insert_eq. }
  destruct (json_decode_request env (Body r)) as [openAIReq|err].
  2:{ run_handler. fold corsHeaders. now rewrite insert_insert_eq. }
  destruct (length (Messages openAIReq) =? 0)%nat.
  { run_handler. fold corsHeaders. now rewrite insert_insert_eq. }
  destruct (String.eqb (Model openAIReq) "").
  { run_handler. fold corsHeaders. now rewrite insert_insert_eq. }
  rewrite sendToOllama_run.
  destruct (ollamaResult env _) as [ollamaResp|err]; run_handler;
    fold corsHeaders; [reflexivity|].
  now rewrite insert_insert_eq.
Qed.

(** Every response, whatever the method and however the request ends,
    carries the four cross-origin headers; every response but the one to
    OPTIONS declares the JSON content type, also on errors, and the one to
    OPTIONS declares no content type. *)
Theorem response_headers (env : Env) (r : Request) :
  SentHeader (Writer (serve env r)) !! "Access-Control-Allow-Origin" = Some "*" /\
  SentHeader (Writer (serve env r)) !! "Access-Control-Allow-Methods"
    = Some "POST, OPTIONS" /\
  SentHeader (Writer (serve env r)) !! "Access-Control-Allow-Headers"
    = Some "Content-Type, Authorization" /\
  SentHeader (Writer (serve env r)) !! "Access-Control-Max-Age" = Some "3600" /\
  (Method r <> MethodOptions ->
   SentHeader (Writer (serve env r)) !! "Content-Type" = Some CONTENT_TYPE_JSON) /\
  (Method r = MethodOptions ->
   SentHeader (Writer (serve env r)) !! "Content-Type" = None).
Proof.
  rewrite serve_sent_header.
  destruct (String.eqb_spec (Method r) MethodOptions) as [Ho|Ho].
  - repeat split; try reflexivity. intros Hne. contradiction.
  - repeat split; try reflexivity. intros Heq. contradiction.
Qed.

Lemma response_headers_witness :
  SentHeader (Writer (serve truncatedBodyEnv (post "{"))) !! "Content-Type"
  = Some "application/json" /\
  SentHeader (Writer (serve helloEnv (mkRequest "OPTIONS" ""))) !! "Content-Type"
  = None.
Proof.
  split.
  - refine (proj1 (proj2 (proj2 (proj2 (proj2
              (response_headers truncatedBodyEnv (post "{")))))) _).
    discriminate.
  - exact (proj2 (proj2 (proj2 (proj2 (proj2
              (response_headers helloEnv (mkRequest "OPTIONS" ""))))))
             eq_refl).
Defined.

(** ** The identifier and the timestamp *)

(** A successful response's id is ["chatcmpl-"] followed by exactly 10 bytes
    of the alphabet, 19 bytes in all, and its created field is the clock's
    reading. *)
Theorem response_id_and_created (env : Env) (r : Request)
    (openAIReq : OpenAIChatRequest) (jsonData : string) (resp : HttpReply)
    (ollamaResp : OllamaResponse) :
  Method r = MethodPost ->
  json_decode_request env (Body r) = Ok openAIReq ->
  validRequest openAIReq ->
  json_marshal env (backendRequest openAIReq) = Ok jsonData ->
  http_post env generateURL CONTENT_TYPE_JSON jsonData = Ok resp ->
  StatusCode resp = StatusOK ->
  BodyErr resp = None ->
  json_unmarshal_response env (BodyData resp) = Ok ollamaResp ->
  exists chat suffix,
    Written (Writer (serve env r)) = [JSONChat chat] /\
    ID chat = "chatcmpl-" +:+ suffix /\
    String.length suffix = 10%nat /\
    (forall c, byteOf c suffix -> byteOf c letters) /\
    len (ID chat) = 19 /\
    Created chat = time_now_unix env.
Proof.
  intros Hm Hd Hv Hj Hp Hs Hb Hu.
  destruct (serve_valid env r openAIReq Hm Hd Hv) as [Ha _].
  unfold answered in Ha.
  rewrite (ollamaResult_ok env _ jsonData resp ollamaResp Hj Hp Hs Hb Hu) in Ha.
  destruct Ha as [_ Hw].
  pose proof (generateRandomString_length env 10) as Hlen.
  eexists. exists (generateRandomString env 10).
  split; [exact Hw|]. split; [reflexivity|]. split; [exact Hlen|].
  split; [|split; [|reflexivity]].
  - intros c. apply generateRandomString_bytes.
  - cbn [ID buildOpenAIResponse]. rewrite len_append. unfold len at 2.
    rewrite Hlen. reflexivity.
Qed.

Lemma response_id_and_created_witness :
  exists chat suffix,
    Written (Writer (serve helloEnv (post "{hi}"))) = [JSONChat chat] /\
    ID chat = "chatcmpl-" +:+ suffix /\
    String.length suffix = 10%nat /\
    (forall c, byteOf c suffix -> byteOf c letters) /\
    len (ID chat) = 19 /\
    Created chat = 1700000000.
Proof.
  exact (response_id_and_created helloEnv (post "{hi}") (hiRequest false)
           "{json}" helloReply helloResponse eq_refl eq_refl
           (hiRequest_valid false) eq_refl eq_refl eq_refl eq_refl eq_refl).
Defined.

(** ** What the prompt token count counts *)

(** In a successful response prompt_tokens is a quarter of the bytes of the
    whole flattened prompt: for every message its role and the three bytes
    of [": "] and the newline count along with its content, so [n] messages
    never count for fewer than [3 * n / 4] tokens. *)
Theorem prompt_tokens_count_roles (env : Env) (r : Request)
    (openAIReq : OpenAIChatRequest) (jsonData : string) (resp : HttpReply)
    (ollamaResp : OllamaResponse) :
  Method r = MethodPost ->
  json_decode_request env (Body r) = Ok openAIReq ->
  validRequest openAIReq ->
  json_marshal env (backendRequest openAIReq) = Ok jsonData ->
  http_post env generateURL CONTENT_TYPE_JSON jsonData = Ok resp ->
  StatusCode resp = StatusOK ->
  BodyErr resp = None ->
  json_unmarshal_response env (BodyData resp) = Ok ollamaResp ->
  exists chat,
    Written (Writer (serve env r)) = [JSONChat chat] /\
    PromptTokens (RespUsage chat) = Z.quot (promptBytes (Messages openAIReq)) 4 /\
    Z.quot (3 * Z.of_nat (length (Messages openAIReq))) 4
    <= PromptTokens (RespUsage chat).
Proof.
  intros Hm Hd Hv Hj Hp Hs Hb Hu.
  destruct (serve_valid env r openAIReq Hm Hd Hv) as [Ha _].
  unfold answered in Ha.
  rewrite (ollamaResult_ok env _ jsonData resp ollamaResp Hj Hp Hs Hb Hu) in Ha.
  destruct Ha as [_ Hw]. eexists. split; [exact Hw|].
  rewrite buildOpenAIResponse_usage. cbv [PromptTokens].
  rewrite prompt_len_bytes. split; [reflexivity|].
  pose proof (promptBytes_lower (Messages openAIReq)).
  apply Z.quot_le_mono; lia.
Qed.

Lemma prompt_tokens_count_roles_witness :
  exists chat,
    Written (Writer (serve helloEnv (post "{hi}"))) = [JSONChat chat] /\
    PromptTokens (RespUsage chat) = Z.quot (4 + 3 + 3) 4 /\
    Z.quot (3 * 1) 4 <= PromptTokens (RespUsage chat).
Proof.
  exact (prompt_tokens_count_roles helloEnv (post "{hi}") (hiRequest false)
           "{json}" helloReply helloResponse eq_refl eq_refl
           (hiRequest_valid false) eq_refl eq_refl eq_refl eq_refl eq_refl).
Defined.
